(** * GenLayer DevKit: template rendering and local contract validation

    A shallow embedding of [genlayer_devkit.py]: the template registry and
    the rendering step of the [generate] command, the structural checks of
    the [test] command, and the commands [init], [deploy], [status] and
    [templates], with the properties proved about them.

    Conventions.
    - A Python [str] is a [string]; every operation the program applies to
      one ([+], [in], [count], [format], [join]) is written out below.
    - The console and the file system are threaded explicitly: a command is
      a function from the file system to an outcome, the file system it
      leaves behind and what it did to the outside, in order.
    - The file system is the one of a POSIX host: a tree of directories and
      regular files under a root, and a working directory.  A name is
      resolved as the host resolves it, component by component, and a
      [pathlib] path is normalised as [pathlib] does it.  Every call that
      the host can refuse ([open], [mkdir], [read]) can fail in the model,
      with the class of the exception Python raises.  Symbolic links,
      access rights, special files and a full disk are not modelled: the
      user may read and write everything that is there.  The limits on the
      length of a name are those of Linux.
    - The host parser behind the builtin [compile] and the [json] module are
      not part of the program: they are parameters ([py_compile],
      [json_dump], [json_load]) of everything that uses them. *)

From Stdlib Require Import String Ascii List ZArith Lia DecimalString DecimalNat.
From stdpp Require Import gmap strings list.

Local Open Scope string_scope.
Local Open Scope list_scope.

(* String concatenation computes under [simpl], as every other fixpoint. *)
#[local] Arguments String.append !_ _ /.

(** ** Python string primitives *)

Module Py.

(** The double quote, the newline and the escape character (codes 34, 10
    and 27), which the literals below cannot hold. *)
Definition dq : string := String (ascii_of_nat 34) EmptyString.
Definition nl : string := String (ascii_of_nat 10) EmptyString.
Definition esc : string := String (ascii_of_nat 27) EmptyString.

(** A triple-quoted literal, line by line: every line ends in a newline. *)
Definition unlines (ls : list string) : string :=
  fold_right (fun l acc => l +:+ nl +:+ acc) "" ls.

(** [sep.join(items)] *)
Fixpoint join (sep : string) (items : list string) : string :=
  match items with
  | [] => ""
  | [x] => x
  | x :: rest => x +:+ sep +:+ join sep rest
  end.

(** [str(n)] for a non-negative [int]. *)
Definition str_of_nat (n : nat) : string :=
  NilZero.string_of_uint (Nat.to_uint n).

(** [pattern in text]: some suffix of [text] starts with [pattern]. *)
Fixpoint contains (pattern text : string) : bool :=
  if String.prefix pattern text then true
  else match text with
       | EmptyString => false
       | String _ rest => contains pattern rest
       end.

(** [text.count(pattern)]: occurrences counted from the left without
    overlap. [skip] is the number of characters still covered by the
    occurrence counted last. *)
Fixpoint count_from (skip : nat) (pattern text : string) : nat :=
  match skip with
  | S k =>
      match text with
      | EmptyString => 0
      | String _ rest => count_from k pattern rest
      end
  | O =>
      match text with
      | EmptyString => if String.prefix pattern text then 1 else 0
      | String _ rest =>
          if String.prefix pattern text
          then S (count_from (Nat.pred (String.length pattern)) pattern rest)
          else count_from 0 pattern rest
      end
  end.

Definition count (pattern text : string) : nat := count_from 0 pattern text.

(** *** [str.format] with the single keyword argument [name]

    The scanner of a format string, one character at a time.  In running
    text a brace is either one half of a doubled brace, which stands for
    the brace itself, or opens a replacement field.  The call site passes
    exactly one keyword argument, [name], and no positional one, so a
    field is replaced only when it reads [name]. *)

Inductive format_error : Type :=
| SingleCloseBrace      (* ValueError: Single '}' encountered in format string *)
| SingleOpenBrace       (* ValueError: Single '{' encountered in format string *)
| UnexpectedOpenBrace   (* ValueError: unexpected '{' in field name *)
| ExpectedCloseBrace    (* ValueError: expected '}' before end of string *)
| FieldNotSupplied (field : string).
                        (* KeyError for a keyword, IndexError for a position *)

Inductive format_result : Type :=
| Rendered (text : string)
| FormatRaises (e : format_error)
| Unmodelled.
    (* a field with a conversion, a format specification, an attribute or
       an index: none occurs in the registry, and the model stops there *)

Inductive scan : Type :=
| InText                    (* running text *)
| AfterOpen                 (* just read one open brace in running text *)
| AfterClose                (* just read one close brace in running text *)
| InField (field : string). (* inside a replacement field, name so far *)

Definition emit (prefix : string) (r : format_result) : format_result :=
  match r with
  | Rendered text => Rendered (prefix +:+ text)
  | other => other
  end.

Definition is_char (c : ascii) (s : string) : bool :=
  String.eqb (String c EmptyString) s.

Fixpoint format_scan (st : scan) (body name : string) : format_result :=
  match body with
  | EmptyString =>
      match st with
      | InText => Rendered ""
      | AfterOpen => FormatRaises SingleOpenBrace
      | AfterClose => FormatRaises SingleCloseBrace
      | InField _ => FormatRaises ExpectedCloseBrace
      end
  | String c rest =>
      let in_field (field : string) :=
        if is_char c "}" then
          if String.eqb field "name" then emit name (format_scan InText rest name)
          else FormatRaises (FieldNotSupplied field)
        else if is_char c "{" then FormatRaises UnexpectedOpenBrace
        else if is_char c ":" || is_char c "!" || is_char c "." || is_char c "["
             then Unmodelled
        else format_scan (InField (field +:+ String c EmptyString)) rest name in
      match st with
      | InText =>
          if is_char c "{" then format_scan AfterOpen rest name
          else if is_char c "}" then format_scan AfterClose rest name
          else emit (String c EmptyString) (format_scan InText rest name)
      | AfterOpen =>
          if is_char c "{" then emit "{" (format_scan InText rest name)
          else in_field ""
      | AfterClose =>
          if is_char c "}" then emit "}" (format_scan InText rest name)
          else FormatRaises SingleCloseBrace
      | InField field => in_field field
      end
  end.

(** [body.format(name=name)] *)
Definition format (body name : string) : format_result :=
  format_scan InText body name.

(** What a template author writes for a literal text: every brace doubled. *)
Fixpoint escape_braces (text : string) : string :=
  match text with
  | EmptyString => EmptyString
  | String c rest =>
      if is_char c "{" || is_char c "}"
      then String c (String c (escape_braces rest))
      else String c (escape_braces rest)
  end.

End Py.

Import Py.

(** ** The console *)

(** The terminal colours of [class Colors]. *)
Module Colors.
Definition HEADER : string := esc +:+ "[95m".
Definition BLUE : string := esc +:+ "[94m".
Definition CYAN : string := esc +:+ "[96m".
Definition GREEN : string := esc +:+ "[92m".
Definition YELLOW : string := esc +:+ "[93m".
Definition RED : string := esc +:+ "[91m".
Definition ENDC : string := esc +:+ "[0m".
Definition BOLD : string := esc +:+ "[1m".
End Colors.

(** One call of [click.echo], recorded by the helper that made it. *)
Inductive line : Type :=
| Echo (text : string)     (* click.echo(text) *)
| Success (msg : string)   (* print_success(msg) *)
| Error (msg : string)     (* print_error(msg) *)
| Info (msg : string)      (* print_info(msg) *)
| Warning (msg : string).  (* print_warning(msg) *)

(** The text each helper hands to [click.echo]. *)
Definition line_text (l : line) : string :=
  match l with
  | Echo text => text
  | Success msg => Colors.GREEN +:+ "✓" +:+ Colors.ENDC +:+ " " +:+ msg
  | Error msg => Colors.RED +:+ "✗" +:+ Colors.ENDC +:+ " " +:+ msg
  | Info msg => Colors.BLUE +:+ "ℹ" +:+ Colors.ENDC +:+ " " +:+ msg
  | Warning msg => Colors.YELLOW +:+ "⚠" +:+ Colors.ENDC +:+ " " +:+ msg
  end.
(** ** Exceptions *)

(** A Python exception.  [SyntaxError] stands for the class and its
    subclasses, which [except SyntaxError] catches alike, with the text of
    [str(e)].  An exception of any other class is told by the name of its
    class and by what it is about: the name of a file, a key. *)
Inductive exception : Type :=
| SyntaxError (msg : string)
| OtherError (class about : string).

(** ** [pathlib] paths *)

(** [s.split('/')] *)
Fixpoint split_slash (s : string) : list string :=
  match s with
  | EmptyString => [""]
  | String c rest =>
      if Ascii.eqb c "/"%char
      then "" :: split_slash rest
      else match split_slash rest with
           | [] => [String c ""]
           | x :: xs => String c x :: xs
           end
  end.

(** [s.lstrip('/')] *)
Fixpoint lstrip_slash (s : string) : string :=
  match s with
  | EmptyString => ""
  | String c rest => if Ascii.eqb c "/"%char then lstrip_slash rest else s
  end.

(** No slash in a string. *)
Fixpoint slash_free (s : string) : bool :=
  match s with
  | EmptyString => true
  | String c rest => negb (Ascii.eqb c "/"%char) && slash_free rest
  end.

(** A [PurePosixPath]: its root, which is empty, one slash or two, and the
    names behind the root. *)
Record path : Type := mkPath {
  root : string;
  names : list string
}.

(** What [pathlib] keeps of the components of a string: the empty ones and
    the single dots go, a double dot stays. *)
Definition is_name (x : string) : bool :=
  negb (String.eqb x "" || String.eqb x ".").

(** [Path(s)]: exactly two slashes in front are a root of their own, any
    other number is the root [/]. *)
Definition Path (s : string) : path :=
  let rel := lstrip_slash s in
  mkPath (match String.length s - String.length rel with
          | 0 => ""
          | 2 => "//"
          | _ => "/"
          end)
         (List.filter is_name (split_slash rel)).

(** What every path made by [Path] and [/] is like. *)
Definition clean (p : path) : Prop :=
  (root p = "" \/ root p = "/" \/ root p = "//")
  /\ Forall (fun x => slash_free x = true /\ is_name x = true) (names p).

(** [p / s]: a string with a root replaces [p], any other adds its names. *)
Definition path_div (p : path) (s : string) : path :=
  let q := Path s in
  if String.eqb (root q) "" then mkPath (root p) (names p ++ names q) else q.

(** [str(p)], which is also what [open] and [os.mkdir] get of a path. *)
Definition path_str (p : path) : string :=
  match names p with
  | [] => if String.eqb (root p) "" then "." else root p
  | _ => root p +:+ join "/" (names p)
  end.

(** ** The file system *)

(** A place in the tree, by the names from the root down. *)
Abbreviation location := (list string).

(** What lies at a place: a directory, a regular file whose bytes decode to
    [text], or a regular file whose bytes are not UTF-8. *)
Inductive node : Type :=
| Dir
| File (text : string)
| Blob.

Record FS : Type := mkFS {
  cwd : location;
  tree : gmap location node
}.

Fixpoint is_prefix (a b : location) : bool :=
  match a, b with
  | [], _ => true
  | x :: a', y :: b' => String.eqb x y && is_prefix a' b'
  | _ :: _, [] => false
  end.

(** The working directory and the directories above it, up to the root, are
    directories; everything else is what the tree says. *)
Definition node_at (fs : FS) (loc : location) : option node :=
  if is_prefix loc (cwd fs) then Some Dir else tree fs !! loc.

(** The directory a place lies in; the root lies in itself. *)
Definition parent (loc : location) : location := removelast loc.

(** Why the host finds no place for a name. *)
Inductive lookup_error : Type :=
| EmbeddedNull    (* ValueError: embedded null byte, raised before the call *)
| ENOENT          (* FileNotFoundError *)
| ENOTDIR         (* NotADirectoryError *)
| ENAMETOOLONG.   (* OSError: File name too long *)

Definition error_class (e : lookup_error) : string :=
  match e with
  | EmbeddedNull => "ValueError"
  | ENOENT => "FileNotFoundError"
  | ENOTDIR => "NotADirectoryError"
  | ENAMETOOLONG => "OSError"
  end.

(** The longest component and the length a whole name must stay below. *)
Definition NAME_MAX : Z := 255.
Definition PATH_MAX : Z := 4096.

(** The walk of the host along the components of a name.  A component is
    looked up in a directory only: where the walk stands on nothing it ends
    with [ENOENT], on a file with [ENOTDIR].  An empty component and a dot
    stay, two dots go up, a name goes down, whether or not something is
    there. *)
Fixpoint walk (fs : FS) (cur : location) (components : list string)
    : lookup_error + location :=
  match components with
  | [] => inr cur
  | c :: rest =>
      match node_at fs cur with
      | None => inl ENOENT
      | Some Dir =>
          if String.eqb c "" || String.eqb c "." then walk fs cur rest
          else if String.eqb c ".." then walk fs (parent cur) rest
          else if (NAME_MAX <? Z.of_nat (String.length c))%Z then inl ENAMETOOLONG
          else walk fs (cur ++ [c]) rest
      | Some _ => inl ENOTDIR
      end
  end.

Fixpoint has_nul (s : string) : bool :=
  match s with
  | EmptyString => false
  | String c rest => Ascii.eqb c (ascii_of_nat 0) || has_nul rest
  end.

(** The place a name stands for: from the root when it starts with a slash,
    from the working directory otherwise. *)
Definition locate (fs : FS) (s : string) : lookup_error + location :=
  if has_nul s then inl EmbeddedNull
  else if String.eqb s "" then inl ENOENT
  else if (PATH_MAX <=? Z.of_nat (String.length s))%Z then inl ENAMETOOLONG
  else walk fs (if String.prefix "/" s then [] else cwd fs) (split_slash s).

(** [os.stat(s)]: what lies under a name. *)
Definition stat (fs : FS) (s : string) : lookup_error + node :=
  match locate fs s with
  | inl e => inl e
  | inr loc =>
      match node_at fs loc with
      | Some n => inr n
      | None => inl ENOENT
      end
  end.

(** [os.path.exists(s)]: whether [os.stat] succeeds. *)
Definition os_exists (s : string) (fs : FS) : bool :=
  match stat fs s with
  | inr _ => true
  | inl _ => false
  end.

(** [p.exists()], where it answers. *)
Definition fs_exists (p : path) (fs : FS) : bool := os_exists (path_str p) fs.

(** Reading in text mode: [\r\n] and [\r] come out as [\n].  [after_cr]
    tells that the character before was a carriage return. *)
Fixpoint translate_newlines (after_cr : bool) (s : string) : string :=
  match s with
  | EmptyString => ""
  | String c rest =>
      if Ascii.eqb c (ascii_of_nat 13)
      then String (ascii_of_nat 10) (translate_newlines true rest)
      else if Ascii.eqb c (ascii_of_nat 10)
      then if after_cr then translate_newlines false rest
           else String c (translate_newlines false rest)
      else String c (translate_newlines false rest)
  end.

Definition universal_newlines (s : string) : string := translate_newlines false s.

(** [open(s, 'r')] followed by [read]: the text, or the exception. *)
Definition open_r (s : string) (fs : FS) : exception + string :=
  match stat fs s with
  | inl e => inl (OtherError (error_class e) s)
  | inr Dir => inl (OtherError "IsADirectoryError" s)
  | inr Blob => inl (OtherError "UnicodeDecodeError" s)
  | inr (File text) => inr (universal_newlines text)
  end.

(** [open(p, 'w')]: the place of the file that is created or emptied, or
    the exception.  The string of a path has no empty component. *)
Definition open_w (p : path) (fs : FS) : exception + location :=
  match locate fs (path_str p) with
  | inl e => inl (OtherError (error_class e) (path_str p))
  | inr loc =>
      match node_at fs loc with
      | Some Dir => inl (OtherError "IsADirectoryError" (path_str p))
      | _ => inr loc
      end
  end.

(** The file at [loc] holds [content], whatever was there.  Text mode
    leaves a newline as it is on this host. *)
Definition fs_write (loc : location) (content : string) (fs : FS) : FS :=
  {| cwd := cwd fs; tree := <[loc := File content]> (tree fs) |}.

(** [os.mkdir(p)]: the place of the new directory, or the exception. *)
Definition may_mkdir (p : path) (fs : FS) : exception + location :=
  match locate fs (path_str p) with
  | inl e => inl (OtherError (error_class e) (path_str p))
  | inr loc =>
      match node_at fs loc with
      | Some _ => inl (OtherError "FileExistsError" (path_str p))
      | None => inr loc
      end
  end.

Definition fs_mkdir (loc : location) (fs : FS) : FS :=
  {| cwd := cwd fs; tree := <[loc := Dir]> (tree fs) |}.

(** Every file and every directory lies in a directory. *)
Definition fs_wf (fs : FS) : Prop :=
  forall loc, node_at fs loc <> None -> node_at fs (parent loc) = Some Dir.

(** ** Commands: outcome, file system and trace *)

Inductive outcome (A : Type) : Type :=
| Return (a : A)          (* the function returned *)
| Raise (e : exception)   (* an exception left the function *)
| OutOfModel.             (* the run left what is modelled *)
Arguments Return {A} a.
Arguments Raise {A} e.
Arguments OutOfModel {A}.

(** What a command does to the outside, in order: a line on the console, a
    file written under the path the program names it by. *)
Inductive event : Type :=
| Print (l : line)
| WriteFile (p : path) (content : string).

Record run (A : Type) : Type := mkRun {
  result : outcome A;
  fs_after : FS;
  trace : list event
}.
Arguments mkRun {A} _ _ _.
Arguments result {A} _.
Arguments fs_after {A} _.
Arguments trace {A} _.

Definition M (A : Type) : Type := FS -> run A.

#[global] Instance M_ret : MRet M := fun A a fs => mkRun (Return a) fs [].

#[global] Instance M_bind : MBind M := fun A B k m fs =>
  match m fs with
  | mkRun (Return a) fs1 t1 =>
      match k a fs1 with
      | mkRun r fs2 t2 => mkRun r fs2 (t1 ++ t2)
      end
  | mkRun (Raise e) fs1 t1 => mkRun (Raise e) fs1 t1
  | mkRun OutOfModel fs1 t1 => mkRun OutOfModel fs1 t1
  end.

Definition raise {A : Type} (e : exception) : M A :=
  fun fs => mkRun (Raise e) fs [].

Definition out_of_model {A : Type} : M A :=
  fun fs => mkRun OutOfModel fs [].

Definition echo_line (l : line) : M unit :=
  fun fs => mkRun (Return tt) fs [Print l].

Definition echo (text : string) : M unit := echo_line (Echo text).
Definition print_success (msg : string) : M unit := echo_line (Success msg).
Definition print_error (msg : string) : M unit := echo_line (Error msg).
Definition print_info (msg : string) : M unit := echo_line (Info msg).
Definition print_warning (msg : string) : M unit := echo_line (Warning msg).

(** [os.path.exists(s)]: false whatever the reason. *)
Definition os_path_exists (s : string) : M bool :=
  fun fs => mkRun (Return (os_exists s fs)) fs [].

(** [p.exists()].  On a name that is too long the answer depends on the
    version of [pathlib]: some raise [OSError], some say no. *)
Definition path_exists (p : path) : M bool :=
  fun fs =>
    match stat fs (path_str p) with
    | inl ENAMETOOLONG => mkRun OutOfModel fs []
    | _ => mkRun (Return (fs_exists p fs)) fs []
    end.

(** [with open(s, 'r') as f: f.read()] *)
Definition read_text (s : string) : M string :=
  fun fs =>
    match open_r s fs with
    | inr text => mkRun (Return text) fs []
    | inl e => mkRun (Raise e) fs []
    end.

(** [with open(p, 'w') as f: f.write(content)] *)
Definition write_text (p : path) (content : string) : M unit :=
  fun fs =>
    match open_w p fs with
    | inr loc => mkRun (Return tt) (fs_write loc content fs) [WriteFile p content]
    | inl e => mkRun (Raise e) fs []
    end.

(** [p.mkdir()] *)
Definition mkdir (p : path) : M unit :=
  fun fs =>
    match may_mkdir p fs with
    | inr loc => mkRun (Return tt) (fs_mkdir loc fs) []
    | inl e => mkRun (Raise e) fs []
    end.

(** [for x in items: body(x)] *)
Fixpoint for_each {A : Type} (items : list A) (body : A -> M unit) : M unit :=
  match items with
  | [] => mret tt
  | x :: rest => body x ;; for_each rest body
  end.

(** What a run showed and what it wrote. *)
Definition printed {A : Type} (r : run A) : list line :=
  omap (fun e => match e with Print l => Some l | WriteFile _ _ => None end) (trace r).

Definition written {A : Type} (r : run A) : list (path * string) :=
  omap (fun e => match e with WriteFile p c => Some (p, c) | Print _ => None end) (trace r).


(** ** The template registry of [generate] *)

Record template : Type := mkTemplate {
  description : string;
  code : string
}.

Definition basic_code : string :=
  unlines
    [ "# {{ " +:+ dq +:+ "Depends" +:+ dq +:+ ": " +:+ dq +:+ "py-genlayer:test" +:+ dq +:+ " }}";
      "from genlayer import *";
      "";
      "class {name}(gl.Contract):";
      "    def __init__(self):";
      "        self.data = {{}}";
      "    ";
      "    @gl.public.write";
      "    def store(self, key: str, value: str):";
      "        self.data[key] = value";
      "        return f" +:+ dq +:+ "Stored: {{key}} = {{value}}" +:+ dq;
      "    ";
      "    @gl.public.view";
      "    def retrieve(self, key: str) -> str:";
      "        return self.data.get(key, " +:+ dq +:+ "Not found" +:+ dq +:+ ")" ].

Definition oracle_code : string :=
  unlines
    [ "# {{ " +:+ dq +:+ "Depends" +:+ dq +:+ ": " +:+ dq +:+ "py-genlayer:test" +:+ dq +:+ " }}";
      "from genlayer import *";
      "";
      "class {name}(gl.Contract):";
      "    def __init__(self):";
      "        self.prices = {{}}";
      "        self.last_update = 0";
      "    ";
      "    @gl.public.write";
      "    def fetch_price(self, token: str) -> int:";
      "        " +:+ dq +:+ dq +:+ dq +:+ "Fetch token price using AI" +:+ dq +:+ dq +:+ dq;
      "        ";
      "        prompt = f" +:+ dq +:+ "Get current price for {{token}} in USD" +:+ dq;
      "        ";
      "        def get_price():";
      "            return gl.exec_prompt(prompt)";
      "        ";
      "        price_str = gl.eq_principle_strict_eq(get_price)";
      "        price = int(price_str)";
      "        ";
      "        self.prices[token] = price";
      "        self.last_update = gl.block_timestamp";
      "        ";
      "        return price";
      "    ";
      "    @gl.public.view";
      "    def get_price(self, token: str) -> int:";
      "        return self.prices.get(token, 0)" ].

Definition insurance_code : string :=
  unlines
    [ "# {{ " +:+ dq +:+ "Depends" +:+ dq +:+ ": " +:+ dq +:+ "py-genlayer:test" +:+ dq +:+ " }}";
      "from genlayer import *";
      "";
      "class {name}(gl.Contract):";
      "    def __init__(self):";
      "        self.policies = {{}}";
      "        self.policy_counter = 0";
      "    ";
      "    @gl.public.write";
      "    def create_policy(self, location: str, coverage: int) -> str:";
      "        self.policy_counter += 1";
      "        policy_id = f" +:+ dq +:+ "POL-{{self.policy_counter}}" +:+ dq;
      "        ";
      "        self.policies[policy_id] = {{";
      "            " +:+ dq +:+ "location" +:+ dq +:+ ": location,";
      "            " +:+ dq +:+ "coverage" +:+ dq +:+ ": coverage,";
      "            " +:+ dq +:+ "active" +:+ dq +:+ ": True";
      "        }}";
      "        ";
      "        return policy_id";
      "    ";
      "    @gl.public.write";
      "    def check_weather(self, policy_id: str) -> str:";
      "        if policy_id not in self.policies:";
      "            return " +:+ dq +:+ "Policy not found" +:+ dq;
      "        ";
      "        # In production: fetch real weather via AI";
      "        # Check if payout conditions met";
      "        ";
      "        return " +:+ dq +:+ "Weather checked" +:+ dq;
      "    ";
      "    @gl.public.view";
      "    def get_policy(self, policy_id: str) -> str:";
      "        policy = self.policies.get(policy_id)";
      "        if not policy:";
      "            return " +:+ dq +:+ "Not found" +:+ dq;
      "        return f" +:+ dq +:+ "Location: {{policy['location']}}, Coverage: {{policy['coverage']}}" +:+ dq ].

Definition defi_code : string :=
  unlines
    [ "# {{ " +:+ dq +:+ "Depends" +:+ dq +:+ ": " +:+ dq +:+ "py-genlayer:test" +:+ dq +:+ " }}";
      "from genlayer import *";
      "";
      "class {name}(gl.Contract):";
      "    def __init__(self):";
      "        self.balances = {{}}";
      "        self.total_supply = 0";
      "    ";
      "    @gl.public.write";
      "    def deposit(self, amount: int):";
      "        user = gl.message_sender_address";
      "        ";
      "        if user not in self.balances:";
      "            self.balances[user] = 0";
      "        ";
      "        self.balances[user] += amount";
      "        self.total_supply += amount";
      "        ";
      "        return f" +:+ dq +:+ "Deposited {{amount}}" +:+ dq;
      "    ";
      "    @gl.public.write";
      "    def withdraw(self, amount: int):";
      "        user = gl.message_sender_address";
      "        ";
      "        if user not in self.balances or self.balances[user] < amount:";
      "            return " +:+ dq +:+ "Insufficient balance" +:+ dq;
      "        ";
      "        self.balances[user] -= amount";
      "        self.total_supply -= amount";
      "        ";
      "        return f" +:+ dq +:+ "Withdrawn {{amount}}" +:+ dq;
      "    ";
      "    @gl.public.view";
      "    def get_balance(self, address: str) -> int:";
      "        return self.balances.get(address, 0)" ].

(** The dict literal [templates], in the order it is written, which is the
    order [templates.keys()] yields. *)
Definition templates : list (string * template) :=
  [ ("basic", mkTemplate "Basic contract with storage" basic_code);
    ("oracle", mkTemplate "Price oracle with AI integration" oracle_code);
    ("insurance", mkTemplate "Weather-based insurance contract" insurance_code);
    ("defi", mkTemplate "Simple DeFi lending contract" defi_code) ].

(** [d[key]], with [None] where [key not in d]. *)
Fixpoint dict_get {V : Type} (d : list (string * V)) (key : string) : option V :=
  match d with
  | [] => None
  | (k, v) :: rest => if String.eqb key k then Some v else dict_get rest key
  end.

Definition keys {V : Type} (d : list (string * V)) : list string := map fst d.

(** [body.format(name=name)] as a step of a command. *)
Definition str_format (body name : string) : M string :=
  match format body name with
  | Rendered text => mret text
  | FormatRaises (FieldNotSupplied field) => raise (OtherError "LookupError" field)
  | FormatRaises _ => raise (OtherError "ValueError" "format string")
  | Unmodelled => out_of_model
  end.
(** ** [generate]: a contract from a template *)

Definition generate (type name : string) : M unit :=
  echo (nl +:+ Colors.BOLD +:+ "📝 Generating Contract" +:+ Colors.ENDC +:+ nl) ;;
  match dict_get templates type with
  | None =>
      print_error ("Unknown template type: " +:+ type) ;;
      print_info ("Available types: " +:+ join ", " (keys templates))
  | Some template =>
      contract_code ← str_format (code template) name ;
      let filename := name +:+ ".py" in
      present ← path_exists (Path "contracts") ;
      contracts_dir ←
        (if negb present
         then print_warning "No contracts/ directory. Run 'genlayer init' first!" ;;
              mret (Path ".")
         else mret (Path "contracts")) ;
      let filepath := path_div contracts_dir filename in
      write_text filepath contract_code ;;
      print_success ("Generated " +:+ path_str filepath) ;;
      print_info ("Template: " +:+ description template) ;;
      echo (nl +:+ Colors.GREEN +:+ "✨ Contract generated!" +:+ Colors.ENDC +:+ nl) ;;
      echo "Next steps:" ;;
      echo ("  genlayer test " +:+ path_str filepath) ;;
      echo ("  genlayer deploy " +:+ path_str filepath +:+ nl)
  end.

(** ** [test]: the local checks of a contract file *)

(** The required elements, as [(pattern, description)]. *)
Definition checks : list (string * string) :=
  [ ("gl.Contract", "Inherits from gl.Contract");
    ("@gl.public", "Has public methods");
    ("def __init__", "Has constructor") ].

(** The body of the loop over [checks]. *)
Definition check_element (contract_code : string) (check : string * string) : M unit :=
  let '(pattern, description) := check in
  if contains pattern contract_code
  then print_success description
  else print_warning ("Missing: " +:+ description).

Section Host.

(** The builtin [compile(source, filename, 'exec')]: [None] when the host
    parser accepts [source], and the exception it raises otherwise. *)
Variable py_compile : string -> string -> option exception.

Definition test (contract_file : string) : M unit :=
  echo (nl +:+ Colors.BOLD +:+ "🧪 Testing Contract" +:+ Colors.ENDC +:+ nl) ;;
  present ← os_path_exists contract_file ;
  if negb present then
    print_error ("Contract file not found: " +:+ contract_file)
  else
    print_info ("Testing: " +:+ contract_file) ;;
    contract_code ← read_text contract_file ;
    match py_compile contract_code contract_file with
    | Some (SyntaxError e) =>
        print_error ("Syntax error: " +:+ e)
    | Some other => raise other
    | None =>
        print_success "Syntax check passed" ;;
        for_each checks (check_element contract_code) ;;
        let public_funcs := count "@gl.public" contract_code in
        print_info ("Public functions: " +:+ str_of_nat public_funcs) ;;
        echo (nl +:+ Colors.GREEN +:+ "✓ Basic tests passed" +:+ Colors.ENDC) ;;
        echo (nl +:+ Colors.YELLOW +:+ "Note:" +:+ Colors.ENDC
              +:+ " For full testing, deploy to testnet" +:+ nl)
    end.

End Host.

(** ** Reading a run *)

Definition generating : line :=
  Echo (nl +:+ Colors.BOLD +:+ "📝 Generating Contract" +:+ Colors.ENDC +:+ nl).

Definition no_contracts_dir : line :=
  Warning "No contracts/ directory. Run 'genlayer init' first!".

(** The lines of [generate] before it opens the file. *)
Definition generate_opening (fs : FS) : list event :=
  Print generating
  :: (if fs_exists (Path "contracts") fs then [] else [Print no_contracts_dir]).

(** The directory [generate] writes into. *)
Definition target_dir (fs : FS) : path :=
  if fs_exists (Path "contracts") fs then Path "contracts" else Path ".".

(** The opening every body of the registry shares, up to the field that
    takes the name, and what a body holds behind it. *)
Definition class_header : string :=
  unlines
    [ "# {{ " +:+ dq +:+ "Depends" +:+ dq +:+ ": " +:+ dq +:+ "py-genlayer:test" +:+ dq +:+ " }}";
      "from genlayer import *";
      "" ]
  +:+ "class {name}".

Definition after_header (body : string) : string :=
  substring (String.length class_header) (String.length body) body.

Definition testing : line :=
  Echo (nl +:+ Colors.BOLD +:+ "🧪 Testing Contract" +:+ Colors.ENDC +:+ nl).

(** The line one required element leaves on the console. *)
Definition idiom_line (contract_code : string) (check : string * string) : line :=
  if contains (fst check) contract_code
  then Success (snd check)
  else Warning ("Missing: " +:+ snd check).

(** The lines of the whole loop over [checks]. *)
Definition battery (contract_code : string) : list line :=
  map (idiom_line contract_code) checks.

(** The report [test] prints, read back from the console: the verdict of
    the syntax check, the verdict of each required element and the count of
    public functions. *)
Definition is_success (description : string) (l : line) : bool :=
  match l with
  | Success msg => String.eqb msg description
  | _ => false
  end.

Definition is_missing (description : string) (l : line) : bool :=
  match l with
  | Warning msg => String.eqb msg ("Missing: " +:+ description)
  | _ => false
  end.

Definition is_count (l : line) : bool :=
  match l with
  | Info msg => String.prefix "Public functions: " msg
  | _ => false
  end.

Definition syntax_ok (ls : list line) : bool :=
  existsb (is_success "Syntax check passed") ls.

Definition check_passed (description : string) (ls : list line) : bool :=
  existsb (is_success description) ls.

Definition check_failed (description : string) (ls : list line) : bool :=
  existsb (is_missing description) ls.

Definition check_reported (description : string) (ls : list line) : bool :=
  check_passed description ls || check_failed description ls.

Definition all_checks_reported (ls : list line) : bool :=
  forallb (fun check => check_reported (snd check) ls) checks.

Definition count_reported (ls : list line) : bool := existsb is_count ls.

(** A report with nothing left out. *)
Definition complete_report (ls : list line) : bool :=
  all_checks_reported ls && count_reported ls.

(** The console lines that come from the loop over [checks]. *)
Definition is_idiom_line (l : line) : bool :=
  existsb (fun check => is_success (snd check) l || is_missing (snd check) l) checks.

Definition idiom_lines (ls : list line) : list line := List.filter is_idiom_line ls.

(** ** Sample hosts *)

(** A stand-in for the host parser in the examples below.  It answers as
    CPython does on the texts they use: it refuses the two that are not
    Python and accepts the others. *)
Definition demo_compile (source filename : string) : option exception :=
  if contains "def f(:" source || contains "int main()" source
  then Some (SyntaxError ("invalid syntax (" +:+ filename +:+ ", line 1)"))
  else None.

(** A working directory with nothing in it. *)
Definition empty_fs : FS := mkFS ["home"; "dev"] ∅.

(** A working directory with the directory [contracts], a few source
    files and a picture. *)
Definition demo_fs : FS :=
  mkFS ["home"; "dev"]
       {[ ["home"; "dev"; "contracts"] := Dir;
          ["home"; "dev"; "bad.py"] := File "def f(:";
          ["home"; "dev"; "marks.py"] :=
            File "def f(:  # gl.Contract, @gl.public, def __init__";
          ["home"; "dev"; "main.c"] := File "int main() { return 0; }";
          ["home"; "dev"; "empty.py"] := File "";
          ["home"; "dev"; "logo.png"] := Blob ]}.


(** ** [templates]: the list shown to the user *)

(** The list literal of the command [templates]; the name [templates]
    itself is taken by the registry of [generate]. *)
Definition templates_list : list (string * string) :=
  [ ("basic", "Basic storage contract");
    ("oracle", "Price oracle with AI");
    ("insurance", "Weather-based insurance");
    ("defi", "Simple DeFi lending") ].

Fixpoint spaces (n : nat) : string :=
  match n with
  | O => ""
  | S k => String " " (spaces k)
  end.

(** A string under the format specification [12] and the like: padded on
    the right with blanks up to [width] characters, never cut. *)
Definition ljust (width : nat) (s : string) : string :=
  s +:+ spaces (width - String.length s).

Definition templates_command : M unit :=
  echo (nl +:+ Colors.BOLD +:+ "📋 Available Templates" +:+ Colors.ENDC +:+ nl) ;;
  for_each templates_list
    (fun '(name, desc) =>
       echo ("  " +:+ Colors.CYAN +:+ ljust 12 name +:+ Colors.ENDC +:+ " - " +:+ desc)) ;;
  echo (nl +:+ Colors.YELLOW +:+ "Usage:" +:+ Colors.ENDC) ;;
  echo ("  genlayer generate --type oracle --name MyOracle" +:+ nl).

(** ** [status]: where to look a contract up *)

Definition status (address : string) : M unit :=
  echo (nl +:+ Colors.BOLD +:+ "📊 Contract Status" +:+ Colors.ENDC +:+ nl) ;;
  print_info ("Address: " +:+ address) ;;
  print_info "Network: testnet" ;;
  echo (nl +:+ Colors.YELLOW +:+ "Check status at:" +:+ Colors.ENDC) ;;
  echo ("https://studio.genlayer.com/contracts/" +:+ address +:+ nl).

(** ** JSON values *)

(** What [json.load] yields and [json.dump] takes: [None], a [bool], a
    number by its literal, a [str], a [list] or a [dict] in the order of
    its keys. *)
#[local] Unset Elimination Schemes.
Inductive json : Type :=
| JNull
| JBool (b : bool)
| JNumber (literal : string)
| JString (s : string)
| JArray (items : list json)
| JObject (members : list (string * json)).
#[local] Set Elimination Schemes.

(** [d.get(key, {})] on a value read from JSON: only a [dict] has [get]. *)
Definition json_get (d : json) (key : string) : M json :=
  match d with
  | JObject members =>
      match dict_get members key with
      | Some v => mret v
      | None => mret (JObject [])
      end
  | _ => raise (OtherError "AttributeError" "get")
  end.

(** [key in x] for a [str] key: a key of a [dict], an element of a [list],
    a substring of a [str]; the other values are not iterable. *)
Definition json_in (key : string) (x : json) : M bool :=
  match x with
  | JObject members =>
      mret (match dict_get members key with Some _ => true | None => false end)
  | JArray items =>
      mret (existsb (fun item => match item with
                                 | JString s => String.eqb s key
                                 | _ => false
                                 end) items)
  | JString s => mret (contains key s)
  | _ => raise (OtherError "TypeError" "not iterable")
  end.

(** [x[key]] for a [str] key: the value of a [dict] under [key]. *)
Definition json_getitem (x : json) (key : string) : M json :=
  match x with
  | JObject members =>
      match dict_get members key with
      | Some v => mret v
      | None => raise (OtherError "KeyError" key)
      end
  | _ => raise (OtherError "TypeError" "indices")
  end.

(** ** [init]: a new project *)

(** The text of [README.md] below its title line. *)
Definition readme_tail : string :=
  unlines
    [ "";
      "GenLayer smart contract project.";
      "";
      "## Setup";
      "";
      "```bash";
      "# Install dependencies";
      "pip install -r requirements.txt";
      "";
      "# Test contracts";
      "genlayer test contracts/MyContract.py";
      "";
      "# Deploy";
      "genlayer deploy contracts/MyContract.py --network testnet";
      "```";
      "";
      "## Project Structure";
      "";
      "- `contracts/` - Smart contracts";
      "- `tests/` - Contract tests";
      "- `scripts/` - Deployment scripts";
      "- `docs/` - Documentation";
      "";
      "## Resources";
      "";
      "- [GenLayer Docs](https://docs.genlayer.com)";
      "- [DevKit Guide](https://github.com/lifeofagct/genlayer-devkit)" ].

(** The text of [requirements.txt]. *)
Definition requirements : string :=
  unlines
    [ "genlayer-sdk>=0.1.0";
      "click>=8.0.0";
      "pytest>=7.0.0" ].

(** The text of [.gitignore]. *)
Definition gitignore : string :=
  unlines
    [ "__pycache__/";
      "*.pyc";
      ".pytest_cache/";
      ".env";
      "venv/";
      "*.log" ].

(** The sample contract of the [basic] project template. *)
Definition basic_contract : string :=
  unlines
    [ "# {{ " +:+ dq +:+ "Depends" +:+ dq +:+ ": " +:+ dq +:+ "py-genlayer:test" +:+ dq +:+ " }}";
      "from genlayer import *";
      "";
      "class MyContract(gl.Contract):";
      "    def __init__(self):";
      "        self.value = 0";
      "    ";
      "    @gl.public.write";
      "    def set_value(self, new_value: int):";
      "        self.value = new_value";
      "        return f" +:+ dq +:+ "Value set to {new_value}" +:+ dq;
      "    ";
      "    @gl.public.view";
      "    def get_value(self) -> int:";
      "        return self.value" ].

(** The sample contract of the [oracle] project template. *)
Definition oracle_contract : string :=
  unlines
    [ "# {{ " +:+ dq +:+ "Depends" +:+ dq +:+ ": " +:+ dq +:+ "py-genlayer:test" +:+ dq +:+ " }}";
      "from genlayer import *";
      "";
      "class PriceOracle(gl.Contract):";
      "    def __init__(self):";
      "        self.prices = {}";
      "    ";
      "    @gl.public.write";
      "    def update_price(self, token: str) -> int:";
      "        # In production, fetch real price via AI";
      "        # For now, demo implementation";
      "        self.prices[token] = 45000";
      "        return self.prices[token]";
      "    ";
      "    @gl.public.view";
      "    def get_price(self, token: str) -> int:";
      "        return self.prices.get(token, 0)" ].

(** The sample contract of any other project template. *)
Definition plain_contract : string :=
  unlines
    [ "# {{ " +:+ dq +:+ "Depends" +:+ dq +:+ ": " +:+ dq +:+ "py-genlayer:test" +:+ dq +:+ " }}";
      "from genlayer import *";
      "";
      "class MyContract(gl.Contract):";
      "    def __init__(self):";
      "        pass" ].

(** The sample contract [init] picks for a project template. *)
Definition contract_content (template : string) : string :=
  if String.eqb template "basic" then basic_contract
  else if String.eqb template "oracle" then oracle_contract
  else plain_contract.

(** The dict [config] of [init]. *)
Definition config (project_name template : string) : json :=
  JObject
    [ ("project_name", JString project_name);
      ("template", JString template);
      ("genlayer_version", JString "1.0");
      ("networks",
        JObject
          [ ("testnet",
              JObject [ ("rpc_url", JString "https://rpc.testnet.genlayer.com");
                        ("network_id", JString "testnet") ]);
            ("mainnet",
              JObject [ ("rpc_url", JString "https://rpc.mainnet.genlayer.com");
                        ("network_id", JString "mainnet") ]) ]) ].

Section Json.

(** [json.dump(value, f, indent=2)]: the text that reaches the file. *)
Variable json_dump : json -> string.

(** [json.load(f)] on the text of a file: [None] where it raises
    [JSONDecodeError]. *)
Variable json_load : string -> option json.

(** [str(value)] for a value read from JSON that is no [str]. *)
Variable py_repr : json -> string.

Definition init (project_name template : string) : M unit :=
  echo (nl +:+ Colors.BOLD +:+ "🚀 GenLayer DevKit" +:+ Colors.ENDC) ;;
  echo ("Creating new project: " +:+ Colors.CYAN +:+ project_name
        +:+ Colors.ENDC +:+ nl) ;;
  let project_path := Path project_name in
  present ← path_exists project_path ;
  if (present : bool) then
    print_error ("Directory '" +:+ project_name +:+ "' already exists!")
  else
    mkdir project_path ;;
    for_each ["contracts"; "tests"; "scripts"; "docs"]
      (fun dir_name =>
         mkdir (path_div project_path dir_name) ;;
         print_success ("Created " +:+ dir_name +:+ "/")) ;;
    write_text (path_div project_path "genlayer.json")
               (json_dump (config project_name template)) ;;
    print_success "Created genlayer.json" ;;
    write_text (path_div project_path "README.md")
               ("# " +:+ project_name +:+ nl +:+ readme_tail) ;;
    print_success "Created README.md" ;;
    write_text (path_div project_path "requirements.txt") requirements ;;
    print_success "Created requirements.txt" ;;
    write_text (path_div project_path ".gitignore") gitignore ;;
    print_success "Created .gitignore" ;;
    write_text (path_div (path_div project_path "contracts") "MyContract.py")
               (contract_content template) ;;
    print_success "Created contracts/MyContract.py" ;;
    echo (nl +:+ Colors.GREEN +:+ "✨ Project created successfully!"
          +:+ Colors.ENDC +:+ nl) ;;
    echo "Next steps:" ;;
    echo ("  cd " +:+ project_name) ;;
    echo "  genlayer generate --help" ;;
    echo ("  genlayer test contracts/MyContract.py" +:+ nl).

(** ** [deploy]: the steps to deploy by hand *)

Definition str_of_json (v : json) : string :=
  match v with
  | JString s => s
  | other => py_repr other
  end.

(** The part of [deploy] that reads [genlayer.json]. *)
Definition show_rpc (network : string) : M unit :=
  let config_file := "genlayer.json" in
  present ← os_path_exists config_file ;
  if (present : bool) then
    text ← read_text config_file ;
    match json_load text with
    | None => raise (OtherError "JSONDecodeError" config_file)
    | Some config =>
        networks ← json_get config "networks" ;
        known ← json_in network networks ;
        if (known : bool) then
          configured ← json_getitem config "networks" ;
          network_config ← json_getitem configured network ;
          rpc_url ← json_getitem network_config "rpc_url" ;
          print_info ("RPC: " +:+ str_of_json rpc_url)
        else mret tt
    end
  else mret tt.

Definition deploy (contract_file network : string) : M unit :=
  echo (nl +:+ Colors.BOLD +:+ "🚀 Deploying Contract" +:+ Colors.ENDC +:+ nl) ;;
  present ← os_path_exists contract_file ;
  if negb present then
    print_error ("Contract file not found: " +:+ contract_file)
  else
    print_info ("Contract: " +:+ contract_file) ;;
    print_info ("Network: " +:+ network) ;;
    show_rpc network ;;
    echo (nl +:+ Colors.YELLOW +:+ "Deployment Steps:" +:+ Colors.ENDC) ;;
    echo "1. Open GenLayer Studio: https://studio.genlayer.com" ;;
    echo ("2. Copy contents of " +:+ contract_file) ;;
    echo "3. Paste into Studio editor" ;;
    echo "4. Click 'Deploy'" ;;
    echo "5. Save contract address" ;;
    print_info (nl +:+ "Contract code:") ;;
    echo (nl +:+ Colors.CYAN +:+ "--- " +:+ contract_file +:+ " ---" +:+ Colors.ENDC) ;;
    contract_code ← read_text contract_file ;
    echo contract_code ;;
    echo (Colors.CYAN +:+ "--- End ---" +:+ Colors.ENDC +:+ nl).

End Json.

(** ** What a command may do to the file system *)

(** A command that leaves the file system as it found it and writes no
    file, however it ends. *)
Definition read_only {A : Type} (m : M A) : Prop :=
  forall fs, fs_after (m fs) = fs /\ written (m fs) = [].

Definition is_file (n : option node) : bool :=
  match n with
  | Some (File _) | Some Blob => true
  | _ => false
  end.

(** From one file system to a later one nothing got lost: the working
    directory is the same, a directory is still a directory and a file is
    still a file. *)
Definition extends (fs fs' : FS) : Prop :=
  cwd fs' = cwd fs
  /\ (forall loc, node_at fs loc = Some Dir -> node_at fs' loc = Some Dir)
  /\ (forall loc, is_file (node_at fs loc) = true -> is_file (node_at fs' loc) = true).

(** A command after which everything that existed still exists, however it
    ends. *)
Definition keeps_entries {A : Type} (m : M A) : Prop :=
  forall fs, extends fs (fs_after (m fs)).

(** A command that keeps the file system well-formed, however it ends. *)
Definition keeps_wf {A : Type} (m : M A) : Prop :=
  forall fs, fs_wf fs -> fs_wf (fs_after (m fs)).

(** [pattern] occurs in [text]: the text is something, the pattern and
    something more. *)
Definition occurs (pattern text : string) : Prop :=
  exists before after, text = before +:+ pattern +:+ after.

(** The opening of every rendered contract, up to the name. *)
Definition rendered_header : string :=
  unlines
    [ "# { " +:+ dq +:+ "Depends" +:+ dq +:+ ": " +:+ dq +:+ "py-genlayer:test" +:+ dq +:+ " }";
      "from genlayer import *";
      "" ]
  +:+ "class ".

(** The two lines that close the console of a run of [test] that got past
    the parser. *)
Definition basic_tests_passed : line :=
  Echo (nl +:+ Colors.GREEN +:+ "✓ Basic tests passed" +:+ Colors.ENDC).

Definition testnet_note : line :=
  Echo (nl +:+ Colors.YELLOW +:+ "Note:" +:+ Colors.ENDC
        +:+ " For full testing, deploy to testnet" +:+ nl).




(** The console of a run of [deploy] that shows the contract: [rpc] is the
    line about the configured network, where there is one. *)
Definition deploy_lines (contract_file network : string) (rpc : list line)
    (contract_code : string) : list line :=
  [ Echo (nl +:+ Colors.BOLD +:+ "🚀 Deploying Contract" +:+ Colors.ENDC +:+ nl);
    Info ("Contract: " +:+ contract_file);
    Info ("Network: " +:+ network) ]
  ++ rpc
  ++ [ Echo (nl +:+ Colors.YELLOW +:+ "Deployment Steps:" +:+ Colors.ENDC);
       Echo "1. Open GenLayer Studio: https://studio.genlayer.com";
       Echo ("2. Copy contents of " +:+ contract_file);
       Echo "3. Paste into Studio editor";
       Echo "4. Click 'Deploy'";
       Echo "5. Save contract address";
       Info (nl +:+ "Contract code:");
       Echo (nl +:+ Colors.CYAN +:+ "--- " +:+ contract_file +:+ " ---" +:+ Colors.ENDC);
       Echo contract_code;
       Echo (Colors.CYAN +:+ "--- End ---" +:+ Colors.ENDC +:+ nl) ].

(** The configuration of the project [shop] with the template [basic], as
    [json.dump] writes it with an indent of two. *)
Definition quoted (s : string) : string := dq +:+ s +:+ dq.

Definition shop_json : string :=
  join nl
    [ "{";
      "  " +:+ quoted "project_name" +:+ ": " +:+ quoted "shop" +:+ ",";
      "  " +:+ quoted "template" +:+ ": " +:+ quoted "basic" +:+ ",";
      "  " +:+ quoted "genlayer_version" +:+ ": " +:+ quoted "1.0" +:+ ",";
      "  " +:+ quoted "networks" +:+ ": {";
      "    " +:+ quoted "testnet" +:+ ": {";
      "      " +:+ quoted "rpc_url" +:+ ": "
        +:+ quoted "https://rpc.testnet.genlayer.com" +:+ ",";
      "      " +:+ quoted "network_id" +:+ ": " +:+ quoted "testnet";
      "    },";
      "    " +:+ quoted "mainnet" +:+ ": {";
      "      " +:+ quoted "rpc_url" +:+ ": "
        +:+ quoted "https://rpc.mainnet.genlayer.com" +:+ ",";
      "      " +:+ quoted "network_id" +:+ ": " +:+ quoted "mainnet";
      "    }";
      "  }";
      "}" ].

(** Stand-ins for [json.dump] and [json.load] in the examples below, right
    on what they use: the configuration above, the empty object, the empty
    array, and a text that is cut off and no JSON. *)
Definition demo_json_dump (value : json) : string := shop_json.

Definition demo_json_load (text : string) : option json :=
  if String.eqb text shop_json then Some (config "shop" "basic")
  else if String.eqb text "{}" then Some (JObject [])
  else if String.eqb text "[]" then Some (JArray [])
  else None.

(** A project directory as the working directory: a contract in
    [contracts] and a configuration file. *)
Definition project_fs : FS :=
  mkFS ["home"; "dev"; "shop"]
       {[ ["home"; "dev"; "shop"; "contracts"] := Dir;
          ["home"; "dev"; "shop"; "contracts"; "c.py"] := File "x = 1";
          ["home"; "dev"; "shop"; "genlayer.json"] := File shop_json ]}.

(** The same with a configuration file that is cut off. *)
Definition broken_fs : FS :=
  mkFS ["home"; "dev"; "shop"]
       {[ ["home"; "dev"; "shop"; "c.py"] := File "x = 1";
          ["home"; "dev"; "shop"; "genlayer.json"] := File "{bad" ]}.

(** * Properties *)

(** ** Strings *)

Lemma append_assoc (a b c : string) : (a +:+ b) +:+ c = a +:+ (b +:+ c).
Proof. induction a as [|x a IH]; simpl; [reflexivity | now rewrite IH]. Qed.

Lemma contains_cons (pattern : string) (c : ascii) (text : string) :
  contains pattern text = true -> contains pattern (String c text) = true.
Proof.
  intros H. cbn [contains]. now destruct (String.prefix pattern (String c text)).
Qed.

Lemma contains_app_r (pattern before text : string) :
  contains pattern text = true -> contains pattern (before +:+ text) = true.
Proof.
  intros H. induction before as [|c before IH]; [exact H|].
  simpl String.append. now apply contains_cons.
Qed.

(** [in] and [count] agree on whether there is an occurrence. *)
Lemma contains_count (pattern text : string) :
  contains pattern text = true <-> 1 <= count pattern text.
Proof.
  unfold count. induction text as [|c text IH].
  - destruct pattern; simpl; split; intros; (lia || congruence).
  - cbn [contains count_from].
    destruct (String.prefix pattern (String c text)).
    + split; intros; (lia || reflexivity).
    + exact IH.
Qed.

Lemma to_uint_not_nil (n : nat) : Nat.to_uint n <> Decimal.Nil.
Proof.
  rewrite <- (Unsigned.of_to n) at 1. rewrite Unsigned.to_of.
  apply DecimalFacts.unorm_nonnil.
Qed.

(** Decimal printing loses nothing. *)
Lemma str_of_nat_inj (n m : nat) : str_of_nat n = str_of_nat m -> n = m.
Proof.
  unfold str_of_nat. intros H.
  assert (Some (Nat.to_uint n) = Some (Nat.to_uint m)) as E.
  { rewrite <- (NilZero.usu _ (to_uint_not_nil n)),
            <- (NilZero.usu _ (to_uint_not_nil m)).
    now rewrite H. }
  injection E as E.
  rewrite <- (Unsigned.of_to n), <- (Unsigned.of_to m). now rewrite E.
Qed.

(** ** The format scanner *)

Lemma emit_emit (a b : string) (r : format_result) :
  emit a (emit b r) = emit (a +:+ b) r.
Proof. destruct r; simpl; [now rewrite append_assoc | reflexivity | reflexivity]. Qed.

Lemma emit_rendered (a text : string) (r : format_result) :
  emit a r = Rendered text -> exists t, r = Rendered t /\ text = a +:+ t.
Proof. destruct r; simpl; intros H; inversion H; eauto. Qed.

(** Once a prefix of the body has been rendered the scanner is back in
    running text, and what follows is scanned on its own. *)
Lemma format_scan_app (name : string) (a b : string) :
  forall (st : scan) (out : string),
    format_scan st a name = Rendered out ->
    format_scan st (a +:+ b) name = emit out (format_scan InText b name).
Proof.
  induction a as [|c a IH]; intros st out H.
  - destruct st; simpl in H; inversion H. simpl. now destruct (format_scan InText b name).
  - simpl String.append. cbn [format_scan] in *.
    destruct st.
    + destruct (is_char c "{"); [now apply IH|].
      destruct (is_char c "}"); [now apply IH|].
      apply emit_rendered in H as (t & Ht & ->).
      rewrite (IH _ _ Ht). now rewrite emit_emit.
    + destruct (is_char c "{").
      * apply emit_rendered in H as (t & Ht & ->).
        rewrite (IH _ _ Ht). now rewrite emit_emit.
      * destruct (is_char c "}").
        -- simpl in H. discriminate.
        -- destruct (is_char c ":" || is_char c "!" || is_char c "." || is_char c "[");
             [discriminate|]. now apply IH.
    + destruct (is_char c "}"); [|discriminate].
      apply emit_rendered in H as (t & Ht & ->).
      rewrite (IH _ _ Ht). now rewrite emit_emit.
    + destruct (is_char c "}").
      * destruct (field =? "name")%string; [|discriminate].
        apply emit_rendered in H as (t & Ht & ->).
        rewrite (IH _ _ Ht). now rewrite emit_emit.
      * destruct (is_char c "{"); [discriminate|].
        destruct (is_char c ":" || is_char c "!" || is_char c "." || is_char c "[");
          [discriminate|]. now apply IH.
Qed.

Lemma format_app (a b name out : string) :
  format a name = Rendered out ->
  format (a +:+ b) name = emit out (format b name).
Proof. apply format_scan_app. Qed.

(** A literal text written with its braces doubled renders to itself. *)
Lemma format_escape_braces (text name : string) :
  format (escape_braces text) name = Rendered text.
Proof.
  unfold format. induction text as [|c text IH]; [reflexivity|].
  cbn [escape_braces].
  destruct (is_char c "{") eqn:Ho; [|destruct (is_char c "}") eqn:Hc].
  - apply String.eqb_eq in Ho. injection Ho as ->. simpl. now rewrite IH.
  - apply String.eqb_eq in Hc. injection Hc as ->. simpl. now rewrite IH.
  - simpl orb. cbv iota. cbn [format_scan]. rewrite Ho, Hc. now rewrite IH.
Qed.

(** ** The registry *)

Lemma templates_cases (type : string) (t : template) :
  dict_get templates type = Some t ->
  (type = "basic" /\ t = mkTemplate "Basic contract with storage" basic_code)
  \/ (type = "oracle" /\ t = mkTemplate "Price oracle with AI integration" oracle_code)
  \/ (type = "insurance" /\ t = mkTemplate "Weather-based insurance contract" insurance_code)
  \/ (type = "defi" /\ t = mkTemplate "Simple DeFi lending contract" defi_code).
Proof.
  unfold templates. cbn [dict_get].
  destruct (String.eqb_spec type "basic") as [->|_];
    [intros [= <-]; tauto|].
  destruct (String.eqb_spec type "oracle") as [->|_];
    [intros [= <-]; tauto|].
  destruct (String.eqb_spec type "insurance") as [->|_];
    [intros [= <-]; tauto|].
  destruct (String.eqb_spec type "defi") as [->|_];
    [intros [= <-]; tauto|].
  discriminate.
Qed.

(** Every body of the registry renders, whatever the name. *)
Lemma registry_renders (type : string) (t : template) (name : string) :
  dict_get templates type = Some t ->
  exists text, format (code t) name = Rendered text.
Proof.
  intros H.
  destruct (templates_cases _ _ H) as [[_ ->]|[[_ ->]|[[_ ->]|[_ ->]]]];
    eexists; vm_compute; reflexivity.
Qed.
(** ** Paths *)


Lemma split_slash_slash_free (s : string) :
  slash_free s = true -> split_slash s = [s].
Proof.
  induction s as [|c s IH]; cbn [split_slash slash_free]; [reflexivity|].
  destruct (Ascii.eqb c "/"); [discriminate|]. cbn [negb andb].
  intros H. now rewrite (IH H).
Qed.

Lemma split_slash_app_slash (a b : string) :
  slash_free a = true ->
  split_slash (a +:+ "/" +:+ b) = a :: split_slash b.
Proof.
  induction a as [|c a IH]; cbn [slash_free]; [reflexivity|].
  destruct (Ascii.eqb c "/") eqn:Hc; [discriminate|]. cbn [negb andb].
  intros H. simpl String.append. cbn [split_slash]. rewrite Hc.
  specialize (IH H). simpl String.append in IH. now rewrite IH.
Qed.

Lemma split_slash_parts (s : string) :
  Forall (fun x => slash_free x = true) (split_slash s).
Proof.
  induction s as [|c s IH]; cbn [split_slash].
  - now constructor.
  - destruct (Ascii.eqb c "/") eqn:Hc; [now constructor|].
    destruct (split_slash s) as [|x xs]; [repeat constructor; cbn; now rewrite Hc|].
    inversion IH; subst. constructor; [|assumption].
    cbn. now rewrite Hc.
Qed.

(** What is added behind the last slash is added to the last component. *)
Lemma split_slash_snoc (a b : string) :
  slash_free b = true ->
  exists init l,
    split_slash a = init ++ [l] /\ split_slash (a +:+ b) = init ++ [l +:+ b].
Proof.
  intros Hb. induction a as [|c a (init & l & Ha & Hab)].
  - exists [], "". split; [reflexivity|]. now apply split_slash_slash_free.
  - simpl String.append. cbn [split_slash].
    destruct (Ascii.eqb c "/").
    + exists ("" :: init), l. rewrite Ha, Hab. split; reflexivity.
    + rewrite Ha, Hab. destruct init as [|x xs].
      * exists [], (String c l). split; reflexivity.
      * exists (String c x :: xs), l. split; reflexivity.
Qed.

Lemma split_join (ps : list string) :
  ps <> [] ->
  Forall (fun x => slash_free x = true) ps ->
  split_slash (join "/" ps) = ps.
Proof.
  induction ps as [|x ps IH]; [congruence|]. intros _ H.
  inversion H as [|? ? Hx Hps]; subst.
  destruct ps as [|y ps].
  - cbn [join]. now apply split_slash_slash_free.
  - change (join "/" (x :: y :: ps)) with (x +:+ "/" +:+ join "/" (y :: ps)).
    rewrite (split_slash_app_slash _ _ Hx). f_equal. now apply IH.
Qed.

Lemma lstrip_slash_py (a : string) :
  lstrip_slash (a +:+ ".py") = lstrip_slash a +:+ ".py".
Proof.
  induction a as [|c a IH]; [reflexivity|].
  simpl String.append. cbn [lstrip_slash].
  destruct (Ascii.eqb c "/"); [exact IH|reflexivity].
Qed.

Lemma length_append (a b : string) :
  String.length (a +:+ b) = String.length a + String.length b.
Proof. induction a as [|x a IH]; cbn; [reflexivity|now rewrite IH]. Qed.

Lemma py_not (l short : string) :
  String.length short < 3 -> String.eqb (l +:+ ".py") short = false.
Proof.
  intros H. apply String.eqb_neq. intros E.
  apply (f_equal String.length) in E. rewrite length_append in E. cbn in E. lia.
Qed.

Lemma is_name_py (l : string) : is_name (l +:+ ".py") = true.
Proof. unfold is_name. now rewrite !py_not by (cbn; lia). Qed.

Lemma py_not_dots (l : string) : String.eqb (l +:+ ".py") ".." = false.
Proof. apply py_not. cbn. lia. Qed.

Lemma Path_root (s : string) :
  root (Path s) = "" \/ root (Path s) = "/" \/ root (Path s) = "//".
Proof.
  unfold Path. cbn [root].
  destruct (String.length s - String.length (lstrip_slash s)) as [|[|[|n]]]; auto.
Qed.

Lemma clean_Path (s : string) : clean (Path s).
Proof.
  split; [apply Path_root|]. unfold Path. cbn [names].
  pose proof (split_slash_parts (lstrip_slash s)) as H.
  induction H as [|x xs Hx _ IH]; cbn [List.filter]; [constructor|].
  destruct (is_name x) eqn:Hn; [constructor; auto|exact IH].
Qed.

Lemma clean_path_div (p : path) (s : string) : clean p -> clean (path_div p s).
Proof.
  intros [Hr Hn]. unfold path_div. destruct (clean_Path s) as [Hr' Hn'].
  destruct (String.eqb (root (Path s)) ""); [|now split].
  split; [exact Hr|]. cbn [names]. now apply Forall_app.
Qed.

(** The name of the file [generate] writes is the last name of its path. *)
Lemma Path_py_last (name : string) :
  exists ps l, names (Path (name +:+ ".py")) = ps ++ [l +:+ ".py"].
Proof.
  unfold Path. cbn [names]. rewrite lstrip_slash_py.
  destruct (split_slash_snoc (lstrip_slash name) ".py" eq_refl) as (init & l & _ & H).
  rewrite H, List.filter_app. cbn [List.filter]. rewrite is_name_py. eauto.
Qed.

Lemma path_div_py_last (p : path) (name : string) :
  exists ps l, names (path_div p (name +:+ ".py")) = ps ++ [l +:+ ".py"].
Proof.
  destruct (Path_py_last name) as (ps & l & H). unfold path_div.
  destruct (String.eqb (root (Path (name +:+ ".py"))) "").
  - cbn [names]. rewrite H. exists (names p ++ ps), l. now rewrite app_assoc.
  - eauto.
Qed.


(** The components of the string of a path: its names, behind an empty
    component for every slash of the root. *)
Lemma split_path_str (p : path) :
  clean p -> names p <> [] ->
  exists empties,
    Forall (fun x => x = "") empties
    /\ split_slash (path_str p) = empties ++ names p.
Proof.
  intros [Hr Hn] Hne. unfold path_str.
  assert (split_slash (join "/" (names p)) = names p) as Hj.
  { apply split_join; [exact Hne|].
    eapply Forall_impl; [exact Hn|]. now intros x [H _]. }
  destruct (names p) as [|x xs] eqn:E; [congruence|]. rewrite <- E in *.
  destruct Hr as [ Hr | [ Hr | Hr ] ]; rewrite Hr.
  - exists []. split; [constructor|]. exact Hj.
  - exists [""]. split; [repeat constructor|].
    change ("/" +:+ join "/" (names p)) with ("" +:+ "/" +:+ join "/" (names p)).
    rewrite split_slash_app_slash by reflexivity. now rewrite Hj.
  - exists [""; ""]. split; [repeat constructor|].
    change ("//" +:+ join "/" (names p))
      with ("" +:+ "/" +:+ ("" +:+ "/" +:+ join "/" (names p))).
    rewrite !split_slash_app_slash by reflexivity. now rewrite Hj.
Qed.

(** ** The tree *)

Lemma is_prefix_refl (l : location) : is_prefix l l = true.
Proof. induction l as [|x l IH]; [reflexivity|]. cbn. now rewrite String.eqb_refl. Qed.

Lemma is_prefix_parent (l c : location) :
  is_prefix l c = true -> is_prefix (parent l) c = true.
Proof.
  unfold parent. revert c. induction l as [|x l IH]; intros c H; [reflexivity|].
  destruct c as [|y c]; [discriminate|]. cbn in H.
  apply andb_true_iff in H as [Hx Hl].
  destruct l as [|z l]; [reflexivity|].
  change (removelast (x :: z :: l)) with (x :: removelast (z :: l)).
  cbn [is_prefix]. rewrite Hx. cbn [andb]. now apply IH.
Qed.

Lemma node_at_cwd (fs : FS) : node_at fs (cwd fs) = Some Dir.
Proof. unfold node_at. now rewrite is_prefix_refl. Qed.

Lemma node_at_root (fs : FS) : node_at fs [] = Some Dir.
Proof. reflexivity. Qed.

Lemma node_at_above (fs : FS) (loc : location) :
  is_prefix loc (cwd fs) = true -> node_at fs loc = Some Dir.
Proof. intros H. unfold node_at. now rewrite H. Qed.

Lemma not_dir_not_above (fs : FS) (loc : location) :
  node_at fs loc <> Some Dir -> is_prefix loc (cwd fs) = false.
Proof.
  intros H. destruct (is_prefix loc (cwd fs)) eqn:E; [|reflexivity].
  now rewrite (node_at_above _ _ E) in H.
Qed.

Lemma node_at_write_other (fs : FS) (loc l : location) (content : string) :
  l <> loc -> node_at (fs_write loc content fs) l = node_at fs l.
Proof.
  intros H. unfold node_at, fs_write. cbn [cwd tree].
  now rewrite lookup_insert_ne by congruence.
Qed.

Lemma node_at_write_same (fs : FS) (loc : location) (content : string) :
  node_at fs loc <> Some Dir ->
  node_at (fs_write loc content fs) loc = Some (File content).
Proof.
  intros H. unfold node_at, fs_write. cbn [cwd tree].
  rewrite (not_dir_not_above _ _ H). apply lookup_insert_eq.
Qed.

Lemma node_at_mkdir_other (fs : FS) (loc l : location) :
  l <> loc -> node_at (fs_mkdir loc fs) l = node_at fs l.
Proof.
  intros H. unfold node_at, fs_mkdir. cbn [cwd tree].
  now rewrite lookup_insert_ne by congruence.
Qed.

Lemma node_at_mkdir_same (fs : FS) (loc : location) :
  node_at (fs_mkdir loc fs) loc = Some Dir.
Proof.
  unfold node_at, fs_mkdir. cbn [cwd tree].
  destruct (is_prefix loc (cwd fs)); [reflexivity|apply lookup_insert_eq].
Qed.

Lemma fs_write_twice (fs : FS) (loc : location) (a b : string) :
  fs_write loc b (fs_write loc a fs) = fs_write loc b fs.
Proof. unfold fs_write. cbn [cwd tree]. f_equal. apply insert_insert_eq. Qed.

(** ** Nothing gets lost *)

Lemma extends_refl (fs : FS) : extends fs fs.
Proof. repeat split; auto. Qed.

Lemma extends_trans (a b c : FS) : extends a b -> extends b c -> extends a c.
Proof.
  intros (H1 & H2 & H3) (K1 & K2 & K3). repeat split.
  - congruence.
  - auto.
  - auto.
Qed.

Lemma extends_write (fs : FS) (loc : location) (content : string) :
  node_at fs loc <> Some Dir -> extends fs (fs_write loc content fs).
Proof.
  intros H. split; [reflexivity|]. split.
  - intros l Hl. destruct (decide (l = loc)) as [->|Hne]; [congruence|].
    now rewrite node_at_write_other.
  - intros l Hl. destruct (decide (l = loc)) as [->|Hne].
    + now rewrite node_at_write_same.
    + now rewrite node_at_write_other.
Qed.

Lemma extends_mkdir (fs : FS) (loc : location) :
  node_at fs loc = None -> extends fs (fs_mkdir loc fs).
Proof.
  intros H. split; [reflexivity|]. split.
  - intros l Hl. destruct (decide (l = loc)) as [->|Hne]; [congruence|].
    now rewrite node_at_mkdir_other.
  - intros l Hl. destruct (decide (l = loc)) as [->|Hne].
    + rewrite H in Hl. discriminate.
    + now rewrite node_at_mkdir_other.
Qed.

(** ** The walk *)

Lemma walk_app (fs : FS) (xs ys : list string) :
  forall cur,
    walk fs cur (xs ++ ys) =
      match walk fs cur xs with
      | inr mid => walk fs mid ys
      | inl e => inl e
      end.
Proof.
  induction xs as [|c xs IH]; intros cur; [reflexivity|].
  cbn [app walk]. destruct (node_at fs cur) as [[| |]|]; try reflexivity.
  destruct (String.eqb c "" || String.eqb c "."); [apply IH|].
  destruct (String.eqb c ".."); [apply IH|].
  destruct (NAME_MAX <? Z.of_nat (String.length c))%Z; [reflexivity|apply IH].
Qed.

(** A walk whose last component is a name ends on that name, in a
    directory. *)
Lemma walk_snoc_name (fs : FS) (xs : list string) (c : string) (start loc : location) :
  is_name c = true -> String.eqb c ".." = false ->
  walk fs start (xs ++ [c]) = inr loc ->
  exists cur, loc = cur ++ [c] /\ node_at fs cur = Some Dir.
Proof.
  intros Hn Hd. rewrite walk_app.
  destruct (walk fs start xs) as [e|cur]; [discriminate|].
  cbn [walk]. destruct (node_at fs cur) as [[| |]|] eqn:Hcur; try discriminate.
  unfold is_name in Hn. apply negb_true_iff in Hn. rewrite Hn, Hd.
  destruct (NAME_MAX <? Z.of_nat (String.length c))%Z; [discriminate|].
  intros [= <-]. eauto.
Qed.

(** A walk through empty components stays where it is. *)
Lemma walk_empties (fs : FS) (empties rest : list string) (cur : location) :
  Forall (fun x => x = "") empties ->
  node_at fs cur = Some Dir ->
  walk fs cur (empties ++ rest) = walk fs cur rest.
Proof.
  intros H Hcur. induction H as [|x xs -> _ IH]; [reflexivity|].
  cbn [app walk]. rewrite Hcur. exact IH.
Qed.

(** A walk that arrives still arrives, at the same place, when nothing got
    lost. *)
Lemma walk_mono (fs fs' : FS) (components : list string) :
  extends fs fs' ->
  forall cur loc,
    walk fs cur components = inr loc -> walk fs' cur components = inr loc.
Proof.
  intros (_ & Hd & _). induction components as [|c rest IH]; intros cur loc;
    [trivial|].
  cbn [walk]. destruct (node_at fs cur) as [[| |]|] eqn:Hcur; try discriminate.
  rewrite (Hd _ Hcur).
  destruct (String.eqb c "" || String.eqb c "."); [apply IH|].
  destruct (String.eqb c ".."); [apply IH|].
  destruct (NAME_MAX <? Z.of_nat (String.length c))%Z; [trivial|apply IH].
Qed.

Lemma locate_mono (fs fs' : FS) (s : string) (loc : location) :
  extends fs fs' -> locate fs s = inr loc -> locate fs' s = inr loc.
Proof.
  intros H. unfold locate. destruct (has_nul s); [trivial|].
  destruct (String.eqb s ""); [trivial|].
  destruct (PATH_MAX <=? Z.of_nat (String.length s))%Z; [trivial|].
  rewrite (proj1 H). now apply walk_mono.
Qed.

(** What exists under a name still exists under it. *)
Lemma os_exists_mono (fs fs' : FS) (s : string) :
  extends fs fs' -> os_exists s fs = true -> os_exists s fs' = true.
Proof.
  intros H. unfold os_exists, stat.
  destruct (locate fs s) as [e|loc] eqn:Hl; [discriminate|].
  rewrite (locate_mono _ _ _ _ H Hl).
  destruct H as (_ & Hd & Hf).
  destruct (node_at fs loc) as [[|text|]|] eqn:Hn; [| | |discriminate]; intros _.
  - now rewrite (Hd _ Hn).
  - specialize (Hf loc). rewrite Hn in Hf. specialize (Hf eq_refl).
    now destruct (node_at fs' loc) as [[| |]|].
  - specialize (Hf loc). rewrite Hn in Hf. specialize (Hf eq_refl).
    now destruct (node_at fs' loc) as [[| |]|].
Qed.

(** In a well-formed file system a walk from a directory ends on something
    that exists or in a directory. *)
Lemma walk_parent (fs : FS) (components : list string) :
  fs_wf fs ->
  forall cur loc,
    node_at fs cur <> None \/ node_at fs (parent cur) = Some Dir ->
    walk fs cur components = inr loc ->
    node_at fs loc <> None \/ node_at fs (parent loc) = Some Dir.
Proof.
  intros Hwf. induction components as [|c rest IH]; intros cur loc Hcur.
  - now intros [= <-].
  - cbn [walk]. destruct (node_at fs cur) as [[| |]|] eqn:Hn; try discriminate.
    destruct (String.eqb c "" || String.eqb c ".").
    { apply IH. left. congruence. }
    destruct (String.eqb c "..").
    { apply IH. left. rewrite (Hwf cur) by congruence. discriminate. }
    destruct (NAME_MAX <? Z.of_nat (String.length c))%Z; [discriminate|].
    apply IH. right. unfold parent. now rewrite removelast_last.
Qed.

Lemma locate_parent (fs : FS) (s : string) (loc : location) :
  fs_wf fs -> locate fs s = inr loc ->
  node_at fs loc <> None \/ node_at fs (parent loc) = Some Dir.
Proof.
  intros Hwf. unfold locate. destruct (has_nul s); [discriminate|].
  destruct (String.eqb s ""); [discriminate|].
  destruct (PATH_MAX <=? Z.of_nat (String.length s))%Z; [discriminate|].
  apply walk_parent; [exact Hwf|]. left.
  destruct (String.prefix "/" s); [discriminate|].
  rewrite node_at_cwd. discriminate.
Qed.

(** ** Well-formed file systems *)

Lemma fs_wf_write (fs : FS) (loc : location) (content : string) :
  fs_wf fs ->
  node_at fs loc <> Some Dir ->
  node_at fs loc <> None \/ node_at fs (parent loc) = Some Dir ->
  fs_wf (fs_write loc content fs).
Proof.
  intros Hwf Hnd Hp l Hl.
  assert (node_at fs (parent loc) = Some Dir) as Hpar.
  { destruct Hp as [H|H]; [now apply Hwf|exact H]. }
  assert (forall x, node_at fs x = Some Dir ->
                    node_at (fs_write loc content fs) x = Some Dir) as Hkeep.
  { intros x Hx. rewrite node_at_write_other; [exact Hx|congruence]. }
  destruct (decide (l = loc)) as [->|Hne].
  - now apply Hkeep.
  - rewrite node_at_write_other in Hl by exact Hne.
    apply Hkeep. now apply Hwf.
Qed.

Lemma fs_wf_mkdir (fs : FS) (loc : location) :
  fs_wf fs ->
  node_at fs loc = None ->
  node_at fs (parent loc) = Some Dir ->
  fs_wf (fs_mkdir loc fs).
Proof.
  intros Hwf Hn Hpar l Hl.
  assert (forall x, node_at fs x = Some Dir ->
                    node_at (fs_mkdir loc fs) x = Some Dir) as Hkeep.
  { intros x Hx. rewrite node_at_mkdir_other; [exact Hx|congruence]. }
  destruct (decide (l = loc)) as [->|Hne].
  - now apply Hkeep.
  - rewrite node_at_mkdir_other in Hl by exact Hne.
    apply Hkeep. now apply Hwf.
Qed.

(** ** Runs of [generate] *)

Lemma stat_contracts (fs : FS) :
  stat fs "contracts" =
    match node_at fs (cwd fs ++ ["contracts"]) with
    | Some n => inr n
    | None => inl ENOENT
    end.
Proof.
  unfold stat. change (locate fs "contracts") with (walk fs (cwd fs) ["contracts"]).
  cbn [walk]. rewrite node_at_cwd. reflexivity.
Qed.

Lemma fs_exists_contracts (fs : FS) :
  fs_exists (Path "contracts") fs =
    match node_at fs (cwd fs ++ ["contracts"]) with
    | Some _ => true
    | None => false
    end.
Proof.
  unfold fs_exists, os_exists. change (path_str (Path "contracts")) with "contracts".
  rewrite stat_contracts. now destruct (node_at fs (cwd fs ++ ["contracts"])).
Qed.

Lemma path_exists_contracts (fs : FS) :
  path_exists (Path "contracts") fs =
    mkRun (Return (fs_exists (Path "contracts") fs)) fs [].
Proof.
  unfold path_exists. change (path_str (Path "contracts")) with "contracts".
  rewrite stat_contracts. now destruct (node_at fs (cwd fs ++ ["contracts"])).
Qed.

Lemma generate_unknown (type name : string) (fs : FS) :
  dict_get templates type = None ->
  generate type name fs =
    mkRun (Return tt) fs
      [ Print generating;
        Print (Error ("Unknown template type: " +:+ type));
        Print (Info "Available types: basic, oracle, insurance, defi") ].
Proof. intros H. unfold generate. rewrite H. reflexivity. Qed.

Lemma generate_known (type name : string) (t : template) (text : string) (fs : FS) :
  dict_get templates type = Some t ->
  format (code t) name = Rendered text ->
  let filepath := path_div (target_dir fs) (name +:+ ".py") in
  generate type name fs =
    match open_w filepath fs with
    | inr loc =>
        mkRun (Return tt) (fs_write loc text fs)
          (generate_opening fs
           ++ [ WriteFile filepath text;
                Print (Success ("Generated " +:+ path_str filepath));
                Print (Info ("Template: " +:+ description t));
                Print (Echo (nl +:+ Colors.GREEN +:+ "✨ Contract generated!"
                             +:+ Colors.ENDC +:+ nl));
                Print (Echo "Next steps:");
                Print (Echo ("  genlayer test " +:+ path_str filepath));
                Print (Echo ("  genlayer deploy " +:+ path_str filepath +:+ nl)) ])
    | inl e => mkRun (Raise e) fs (generate_opening fs)
    end.
Proof.
  intros H Hf filepath. subst filepath. unfold generate, target_dir, generate_opening.
  rewrite H. unfold str_format. rewrite Hf.
  cbv beta iota zeta delta [mbind M_bind mret M_ret echo echo_line].
  rewrite path_exists_contracts.
  destruct (fs_exists (Path "contracts") fs); cbn [negb];
    cbv beta iota zeta delta [mbind M_bind mret M_ret echo echo_line print_warning
                              print_success print_info write_text];
    match goal with |- context [open_w ?p fs] => destruct (open_w p fs) end;
    reflexivity.
Qed.

(** ** Runs of [test] *)

Lemma open_r_exists (s text : string) (fs : FS) :
  open_r s fs = inr text -> os_exists s fs = true.
Proof.
  unfold open_r, os_exists. destruct (stat fs s) as [e|[| |]]; (discriminate || reflexivity).
Qed.

Lemma for_each_checks (contract_code : string) (fs : FS) :
  for_each checks (check_element contract_code) fs =
    mkRun (Return tt) fs (map Print (battery contract_code)).
Proof.
  unfold battery, idiom_line, checks, for_each, check_element.
  unfold mbind, M_bind, mret, M_ret, print_success, print_warning, echo_line.
  cbn [map fst snd].
  destruct (contains "gl.Contract" contract_code),
           (contains "@gl.public" contract_code),
           (contains "def __init__" contract_code); reflexivity.
Qed.

Section TestRuns.

Variable py_compile : string -> string -> option exception.
Variables (contract_file : string) (fs : FS).

Lemma test_not_found :
  os_exists contract_file fs = false ->
  test py_compile contract_file fs =
    mkRun (Return tt) fs
      [ Print testing;
        Print (Error ("Contract file not found: " +:+ contract_file)) ].
Proof.
  intros H. unfold test, mbind, M_bind, os_path_exists, echo, echo_line.
  rewrite H. reflexivity.
Qed.

Lemma test_unreadable (e : exception) :
  os_exists contract_file fs = true ->
  open_r contract_file fs = inl e ->
  test py_compile contract_file fs =
    mkRun (Raise e) fs
      [ Print testing; Print (Info ("Testing: " +:+ contract_file)) ].
Proof.
  intros H Hf.
  unfold test, mbind, M_bind, os_path_exists, echo, print_info, echo_line, read_text.
  rewrite H. cbn [negb]. rewrite Hf. reflexivity.
Qed.

Variable contract_code : string.
Hypothesis holds : open_r contract_file fs = inr contract_code.

Lemma test_syntax_error (e : string) :
  py_compile contract_code contract_file = Some (SyntaxError e) ->
  test py_compile contract_file fs =
    mkRun (Return tt) fs
      [ Print testing;
        Print (Info ("Testing: " +:+ contract_file));
        Print (Error ("Syntax error: " +:+ e)) ].
Proof.
  intros H.
  unfold test, mbind, M_bind, os_path_exists, echo, print_info, print_error,
    echo_line, read_text.
  rewrite (open_r_exists _ _ _ holds). cbn [negb]. rewrite holds, H. reflexivity.
Qed.

Lemma test_compile_raises (class about : string) :
  py_compile contract_code contract_file = Some (OtherError class about) ->
  test py_compile contract_file fs =
    mkRun (Raise (OtherError class about)) fs
      [ Print testing; Print (Info ("Testing: " +:+ contract_file)) ].
Proof.
  intros H.
  unfold test, mbind, M_bind, os_path_exists, echo, print_info, echo_line,
    read_text, raise.
  rewrite (open_r_exists _ _ _ holds). cbn [negb]. rewrite holds, H. reflexivity.
Qed.

Lemma test_accepted :
  py_compile contract_code contract_file = None ->
  test py_compile contract_file fs =
    mkRun (Return tt) fs
      ([ Print testing;
         Print (Info ("Testing: " +:+ contract_file));
         Print (Success "Syntax check passed") ]
       ++ map Print (battery contract_code)
       ++ [ Print (Info ("Public functions: "
                         +:+ str_of_nat (count "@gl.public" contract_code)));
            Print basic_tests_passed;
            Print testnet_note ]).
Proof.
  intros H.
  unfold test, mbind, M_bind, os_path_exists, echo, print_info, print_success,
    echo_line, read_text.
  rewrite (open_r_exists _ _ _ holds). cbn [negb].
  rewrite holds, H, for_each_checks. reflexivity.
Qed.

End TestRuns.

(** Every run of [test] is one of the five above. *)
Lemma test_cases (py_compile : string -> string -> option exception)
    (contract_file : string) (fs : FS) :
  (os_exists contract_file fs = false)
  \/ (os_exists contract_file fs = true /\ exists e, open_r contract_file fs = inl e)
  \/ (exists contract_code, open_r contract_file fs = inr contract_code).
Proof.
  destruct (open_r contract_file fs) as [e|text] eqn:Hr; [|eauto].
  destruct (os_exists contract_file fs); eauto.
Qed.

Lemma printed_run {A : Type} (o : outcome A) (fs : FS) (t : list event) :
  printed (mkRun o fs t) =
    omap (fun e => match e with Print l => Some l | WriteFile _ _ => None end) t.
Proof. reflexivity. Qed.

Lemma written_run {A : Type} (o : outcome A) (fs : FS) (t : list event) :
  written (mkRun o fs t) =
    omap (fun e => match e with WriteFile p c => Some (p, c) | Print _ => None end) t.
Proof. reflexivity. Qed.

Lemma list_omap_map_print (ls : list line) :
  omap (fun e => match e with Print l => Some l | WriteFile _ _ => None end)
       (map Print ls) = ls.
Proof. induction ls as [|l ls IH]; [reflexivity|]. cbn. now rewrite IH. Qed.

Lemma printed_map_print {A : Type} (o : outcome A) (fs : FS) (ls : list line) :
  printed (mkRun o fs (map Print ls)) = ls.
Proof. rewrite printed_run. apply list_omap_map_print. Qed.

Lemma written_map_print {A : Type} (o : outcome A) (fs : FS) (ls : list line) :
  written (mkRun o fs (map Print ls)) = [].
Proof. rewrite written_run. induction ls as [|l ls IH]; [reflexivity|exact IH]. Qed.

Lemma printed_opening (fs : FS) :
  omap (fun e => match e with Print l => Some l | WriteFile _ _ => None end)
       (generate_opening fs)
  = generating :: (if fs_exists (Path "contracts") fs then [] else [no_contracts_dir]).
Proof. unfold generate_opening. now destruct (fs_exists (Path "contracts") fs). Qed.

Lemma written_opening (fs : FS) :
  omap (fun e => match e with WriteFile p c => Some (p, c) | Print _ => None end)
       (generate_opening fs) = [].
Proof. unfold generate_opening. now destruct (fs_exists (Path "contracts") fs). Qed.

(** ** What [generate] leaves *)

Lemma py_file_not_contracts (name : string) : name +:+ ".py" <> "contracts".
Proof.
  do 10 (destruct name as [|? name]; [discriminate|]). discriminate.
Qed.

Section GenerateRuns.

Variables (type name : string) (t : template) (text : string) (fs : FS).
Hypothesis known : dict_get templates type = Some t.
Hypothesis renders : format (code t) name = Rendered text.

Let filepath : path := path_div (target_dir fs) (name +:+ ".py").

Lemma generate_returns (loc : location) :
  open_w filepath fs = inr loc ->
  result (generate type name fs) = Return tt
  /\ fs_after (generate type name fs) = fs_write loc text fs
  /\ written (generate type name fs) = [(filepath, text)]
  /\ node_at (fs_after (generate type name fs)) loc = Some (File text)
  /\ extends fs (fs_after (generate type name fs)).
Proof.
  intros Ho. pose proof (generate_known _ _ _ _ fs known renders) as H.
  cbv zeta in H. fold filepath in H. rewrite Ho in H. rewrite H.
  assert (node_at fs loc <> Some Dir) as Hnd.
  { unfold open_w in Ho. destruct (locate fs (path_str filepath)); [discriminate|].
    destruct (node_at fs l) as [[| |]|] eqn:E; try discriminate;
      injection Ho as <-; congruence. }
  cbn [result fs_after]. rewrite written_run, omap_app, written_opening.
  repeat split; try reflexivity.
  - now apply node_at_write_same.
  - now apply extends_write.
  - now apply extends_write.
Qed.

Lemma generate_raises (e : exception) :
  open_w filepath fs = inl e ->
  result (generate type name fs) = Raise e
  /\ fs_after (generate type name fs) = fs
  /\ written (generate type name fs) = [].
Proof.
  intros Ho. pose proof (generate_known _ _ _ _ fs known renders) as H.
  cbv zeta in H. fold filepath in H. rewrite Ho in H. rewrite H.
  cbn [result fs_after]. now rewrite written_run, written_opening.
Qed.

Lemma generate_returned :
  result (generate type name fs) = Return tt ->
  exists loc, open_w filepath fs = inr loc.
Proof.
  destruct (open_w filepath fs) as [e|loc] eqn:Ho; [|eauto].
  rewrite (proj1 (generate_raises e Ho)). discriminate.
Qed.

(** The file [generate] writes lies in a directory and is named for a
    Python file. *)
Lemma generate_target (loc : location) :
  open_w filepath fs = inr loc ->
  exists cur l, loc = cur ++ [l +:+ ".py"] /\ node_at fs cur = Some Dir.
Proof.
  unfold open_w. destruct (locate fs (path_str filepath)) as [e|loc'] eqn:Hl;
    [discriminate|].
  intros Ho. assert (loc' = loc) as -> by (destruct (node_at fs loc') as [[| |]|]; congruence).
  clear Ho. unfold locate in Hl.
  destruct (has_nul (path_str filepath)); [discriminate|].
  destruct (String.eqb (path_str filepath) ""); [discriminate|].
  destruct (PATH_MAX <=? Z.of_nat (String.length (path_str filepath)))%Z; [discriminate|].
  destruct (path_div_py_last (target_dir fs) name) as (ps & l & Hn).
  fold filepath in Hn.
  assert (clean filepath) as Hc.
  { apply clean_path_div. unfold target_dir.
    destruct (fs_exists (Path "contracts") fs); apply clean_Path. }
  destruct (split_path_str filepath Hc) as (empties & He & Hs).
  { rewrite Hn. now destruct ps. }
  rewrite Hs, Hn, app_assoc in Hl.
  destruct (walk_snoc_name _ _ _ _ _ (is_name_py l) (py_not_dots l) Hl) as (cur & -> & Hd).
  eauto.
Qed.

(** Writing the file does not change whether [contracts] exists. *)
Lemma contracts_after_generate :
  fs_exists (Path "contracts") (fs_after (generate type name fs))
  = fs_exists (Path "contracts") fs.
Proof.
  destruct (open_w filepath fs) as [e|loc] eqn:Ho.
  - now rewrite (proj1 (proj2 (generate_raises e Ho))).
  - destruct (generate_returns loc Ho) as (_ & -> & _).
    destruct (generate_target loc Ho) as (cur & l & -> & _).
    rewrite !fs_exists_contracts. cbn [cwd fs_write].
    rewrite node_at_write_other; [reflexivity|].
    intros E. apply app_inj_tail in E as [_ E].
    symmetry in E. now apply py_file_not_contracts in E.
Qed.

(** A second run repeats the first. *)
Lemma generate_again :
  generate type name (fs_after (generate type name fs)) = generate type name fs.
Proof.
  destruct (open_w filepath fs) as [e|loc] eqn:Ho.
  - now rewrite (proj1 (proj2 (generate_raises e Ho))).
  - destruct (generate_returns loc Ho) as (_ & Hfs & _ & Hnode & Hext).
    pose proof contracts_after_generate as Hc.
    remember (fs_after (generate type name fs)) as fs' eqn:E. clear E.
    rewrite (generate_known _ _ _ _ fs' known renders),
            (generate_known _ _ _ _ fs known renders). cbv zeta.
    unfold generate_opening, target_dir. rewrite Hc.
    fold (target_dir fs). fold filepath. rewrite Ho.
    assert (open_w filepath fs' = inr loc) as ->.
    { unfold open_w in *.
      destruct (locate fs (path_str filepath)) as [e|loc'] eqn:Hl; [discriminate|].
      assert (loc' = loc) as -> by (destruct (node_at fs loc') as [[| |]|]; congruence).
      rewrite (locate_mono _ _ _ _ Hext Hl), Hnode. reflexivity. }
    rewrite Hfs, fs_write_twice. reflexivity.
Qed.

End GenerateRuns.




(** ** [in] is the presence of a substring *)

Lemma prefix_app (pattern text : string) :
  String.prefix pattern text = true <-> exists after, text = pattern +:+ after.
Proof.
  revert text. induction pattern as [|c pattern IH]; intros text.
  - split; [intros _; now exists text|]. intros _. now destruct text.
  - destruct text as [|d text]; cbn [String.prefix].
    + split; [discriminate|]. intros [after H]. discriminate.
    + destruct (ascii_dec c d) as [<-|Hne].
      * rewrite IH. split; intros [after H]; exists after.
        -- simpl String.append. now rewrite H.
        -- simpl String.append in H. now injection H.
      * split; [discriminate|]. intros [after H].
        simpl String.append in H. injection H as H _. congruence.
Qed.

Lemma contains_prefix (pattern text : string) :
  String.prefix pattern text = true -> contains pattern text = true.
Proof. intros H. destruct text; cbn [contains]; now rewrite H. Qed.

(** [pattern in text] says exactly that the text is something, the pattern
    and something more. *)
Lemma contains_occurs (pattern text : string) :
  contains pattern text = true <-> occurs pattern text.
Proof.
  split.
  - induction text as [|c text IH]; cbn [contains].
    + destruct (String.prefix pattern "") eqn:Hp; [|discriminate].
      intros _. apply prefix_app in Hp as [after H]. now exists "", after.
    + destruct (String.prefix pattern (String c text)) eqn:Hp.
      * intros _. apply prefix_app in Hp as [after H]. now exists "", after.
      * intros H. destruct (IH H) as (before & after & ->).
        now exists (String c before), after.
  - intros (before & after & ->). apply contains_app_r, contains_prefix.
    apply prefix_app. now exists after.
Qed.
(** * The claims *)

(** ** C1: what a syntax error leaves of the report *)

(** C1, counterexample.  The file [bad.py] holds [def f(:], which the
    parser refuses; the console of [test] then shows none of the required
    elements and no count of public functions. *)
Lemma syntax_error_skips_checks :
  open_r "bad.py" demo_fs = inr "def f(:"
  /\ demo_compile "def f(:" "bad.py" = Some (SyntaxError "invalid syntax (bad.py, line 1)")
  /\ all_checks_reported (printed (test demo_compile "bad.py" demo_fs)) = false
  /\ count_reported (printed (test demo_compile "bad.py" demo_fs)) = false.
Proof. vm_compute. repeat split; reflexivity. Qed.

(** C1, as the code has it.  When the parser raises [SyntaxError] on the
    text read from the file, [test] prints the error and returns: the
    console holds the banner, the name of the file and the error, the
    syntax verdict is negative, and no required element and no count is
    reported. *)
Theorem test_stops_at_syntax_error
    (py_compile : string -> string -> option exception)
    (contract_file contract_code e : string) (fs : FS) :
  open_r contract_file fs = inr contract_code ->
  py_compile contract_code contract_file = Some (SyntaxError e) ->
  result (test py_compile contract_file fs) = Return tt
  /\ printed (test py_compile contract_file fs) =
       [ testing;
         Info ("Testing: " +:+ contract_file);
         Error ("Syntax error: " +:+ e) ]
  /\ syntax_ok (printed (test py_compile contract_file fs)) = false
  /\ (forall check, In check checks ->
        check_reported (snd check) (printed (test py_compile contract_file fs)) = false)
  /\ count_reported (printed (test py_compile contract_file fs)) = false.
Proof.
  intros Hf Hc. rewrite (test_syntax_error _ _ _ _ Hf _ Hc).
  repeat split; reflexivity.
Qed.

Lemma test_stops_at_syntax_error_witness :
  open_r "bad.py" demo_fs = inr "def f(:"
  /\ printed (test demo_compile "bad.py" demo_fs) =
       [ testing;
         Info "Testing: bad.py";
         Error "Syntax error: invalid syntax (bad.py, line 1)" ].
Proof.
  split; [vm_compute; reflexivity|].
  apply (test_stops_at_syntax_error demo_compile "bad.py" "def f(:"
           "invalid syntax (bad.py, line 1)" demo_fs);
    vm_compute; reflexivity.
Defined.

(** ** C2: the report for an arbitrary text *)

(** C2, counterexample.  The file [main.c] holds a C program.  [test]
    returns, the syntax verdict is negative, and yet no required element is
    reported as failed: the report is not complete.  The file [logo.png]
    holds bytes that are no text: the exception of [read] leaves [test]. *)
Lemma unrelated_language_report_incomplete :
  open_r "main.c" demo_fs = inr "int main() { return 0; }"
  /\ result (test demo_compile "main.c" demo_fs) = Return tt
  /\ syntax_ok (printed (test demo_compile "main.c" demo_fs)) = false
  /\ check_failed "Inherits from gl.Contract" (printed (test demo_compile "main.c" demo_fs)) = false
  /\ check_failed "Has public methods" (printed (test demo_compile "main.c" demo_fs)) = false
  /\ check_failed "Has constructor" (printed (test demo_compile "main.c" demo_fs)) = false
  /\ complete_report (printed (test demo_compile "main.c" demo_fs)) = false
  /\ result (test demo_compile "logo.png" demo_fs)
       = Raise (OtherError "UnicodeDecodeError" "logo.png").
Proof. vm_compute. repeat split; reflexivity. Qed.

Lemma battery_reported (contract_code : string) (before after : list line) :
  all_checks_reported (before ++ battery contract_code ++ after) = true.
Proof.
  unfold all_checks_reported, check_reported, check_passed, check_failed.
  cbn [forallb checks snd]. rewrite !existsb_app.
  unfold battery, idiom_line, checks. cbn [map fst snd].
  destruct (contains "gl.Contract" contract_code),
           (contains "@gl.public" contract_code),
           (contains "def __init__" contract_code);
    cbn; rewrite ?orb_true_r; reflexivity.
Qed.

Lemma printed_test_accepted
    (py_compile : string -> string -> option exception)
    (contract_file contract_code : string) (fs : FS) :
  open_r contract_file fs = inr contract_code ->
  py_compile contract_code contract_file = None ->
  printed (test py_compile contract_file fs) =
    [ testing;
      Info ("Testing: " +:+ contract_file);
      Success "Syntax check passed" ]
    ++ battery contract_code
    ++ [ Info ("Public functions: " +:+ str_of_nat (count "@gl.public" contract_code));
         basic_tests_passed;
         testnet_note ].
Proof.
  intros Hf Hc. rewrite (test_accepted _ _ _ _ Hf Hc), printed_run.
  now rewrite !omap_app, list_omap_map_print.
Qed.

(** C2, as the code has it.  What [test] does with a text it has read is
    decided by the answer of the parser.  Accepted: [test] returns and the
    report is complete: the syntax verdict, the three required elements in
    the order of [checks], each present or missing, and the count after
    them.  [SyntaxError]: [test] returns and the report is the error alone:
    no required element is reported, as missing or as present, and no
    count. *)
Theorem test_report_by_parser_answer
    (py_compile : string -> string -> option exception)
    (contract_file contract_code : string) (fs : FS) :
  open_r contract_file fs = inr contract_code ->
  match py_compile contract_code contract_file with
  | None =>
      result (test py_compile contract_file fs) = Return tt
      /\ printed (test py_compile contract_file fs) =
           [ testing;
             Info ("Testing: " +:+ contract_file);
             Success "Syntax check passed";
             (if contains "gl.Contract" contract_code
              then Success "Inherits from gl.Contract"
              else Warning "Missing: Inherits from gl.Contract");
             (if contains "@gl.public" contract_code
              then Success "Has public methods"
              else Warning "Missing: Has public methods");
             (if contains "def __init__" contract_code
              then Success "Has constructor"
              else Warning "Missing: Has constructor");
             Info ("Public functions: "
                   +:+ str_of_nat (count "@gl.public" contract_code));
             basic_tests_passed;
             testnet_note ]
      /\ syntax_ok (printed (test py_compile contract_file fs)) = true
      /\ complete_report (printed (test py_compile contract_file fs)) = true
  | Some (SyntaxError e) =>
      result (test py_compile contract_file fs) = Return tt
      /\ printed (test py_compile contract_file fs) =
           [ testing;
             Info ("Testing: " +:+ contract_file);
             Error ("Syntax error: " +:+ e) ]
      /\ syntax_ok (printed (test py_compile contract_file fs)) = false
      /\ (forall check, In check checks ->
            check_failed (snd check) (printed (test py_compile contract_file fs)) = false
            /\ check_passed (snd check) (printed (test py_compile contract_file fs)) = false)
      /\ count_reported (printed (test py_compile contract_file fs)) = false
  | Some (OtherError _ _) => True
  end.
Proof.
  intros Hf.
  destruct (py_compile contract_code contract_file) as [[e|class about]|] eqn:Hc.
  - rewrite (test_syntax_error _ _ _ _ Hf _ Hc).
    repeat split; reflexivity.
  - exact I.
  - rewrite (printed_test_accepted _ _ _ _ Hf Hc).
    split; [now rewrite (test_accepted _ _ _ _ Hf Hc)|].
    split; [reflexivity|]. split; [reflexivity|].
    unfold complete_report. apply andb_true_iff. split.
    + apply battery_reported.
    + unfold count_reported. rewrite !existsb_app, !orb_true_iff. right. right.
      cbn. now destruct (str_of_nat (count "@gl.public" contract_code)).
Qed.

Lemma test_report_by_parser_answer_witness :
  open_r "empty.py" demo_fs = inr ""
  /\ result (test demo_compile "empty.py" demo_fs) = Return tt
  /\ complete_report (printed (test demo_compile "empty.py" demo_fs)) = true.
Proof.
  assert (open_r "empty.py" demo_fs = inr "") as Hf by (vm_compute; reflexivity).
  pose proof (test_report_by_parser_answer demo_compile "empty.py" "" demo_fs Hf) as H.
  change (demo_compile "" "empty.py") with (@None exception) in H.
  cbv iota in H. split; [exact Hf|]. split; [apply H|apply H].
Defined.

(** The empty text is accepted by the parser and fails every required
    element: the longest report [test] gives. *)
Example test_empty_text :
  printed (test demo_compile "empty.py" demo_fs) =
    [ testing;
      Info "Testing: empty.py";
      Success "Syntax check passed";
      Warning "Missing: Inherits from gl.Contract";
      Warning "Missing: Has public methods";
      Warning "Missing: Has constructor";
      Info "Public functions: 0";
      Echo (nl +:+ Colors.GREEN +:+ "✓ Basic tests passed" +:+ Colors.ENDC);
      Echo (nl +:+ Colors.YELLOW +:+ "Note:" +:+ Colors.ENDC
            +:+ " For full testing, deploy to testnet" +:+ nl) ].
Proof. vm_compute. reflexivity. Qed.

(** ** C3: an unknown template key *)




(** ** C6: doubled braces *)

(** C6.  After any part of a body that renders, a doubled brace adds one
    brace to the output and the scan goes on in running text right behind
    it, so neither half opens or closes a field.  A text written with all
    its braces doubled therefore renders to itself, a [name] between
    braces included. *)
Theorem doubled_brace_is_literal (before after name out text : string) :
  format before name = Rendered out ->
  format (before +:+ "{{" +:+ after) name = emit (out +:+ "{") (format after name)
  /\ format (before +:+ "}}" +:+ after) name = emit (out +:+ "}") (format after name)
  /\ format (before +:+ escape_braces text +:+ after) name
       = emit (out +:+ text) (format after name).
Proof.
  intros H. repeat split.
  - rewrite (format_app _ _ _ _ H). rewrite <- emit_emit. reflexivity.
  - rewrite (format_app _ _ _ _ H). rewrite <- emit_emit. reflexivity.
  - rewrite (format_app _ _ _ _ H).
    rewrite (format_app _ after _ _ (format_escape_braces text name)).
    now rewrite emit_emit.
Qed.

Lemma doubled_brace_is_literal_witness :
  format "self.data = " "Foo" = Rendered "self.data = "
  /\ format ("self.data = " +:+ "{{" +:+ "}}") "Foo" = Rendered "self.data = {}"
  /\ format ("self.data = " +:+ escape_braces "{name}" +:+ "") "Foo"
       = Rendered "self.data = {name}".
Proof.
  assert (format "self.data = " "Foo" = Rendered "self.data = ") as H by reflexivity.
  split; [exact H|]. split.
  - exact (proj1 (doubled_brace_is_literal "self.data = " "}}" "Foo" "self.data = " "" H)).
  - exact (proj2 (proj2 (doubled_brace_is_literal "self.data = " "" "Foo" "self.data = "
                           "{name}" H))).
Defined.

(** ** C7: the same arguments give the same file *)



(** Two clean directories, one with [contracts] and one without: both runs
    return and write the same text. *)
Example generate_clean_directories :
  result (generate "basic" "Foo" demo_fs) = Return tt
  /\ result (generate "basic" "Foo" empty_fs) = Return tt
  /\ map snd (written (generate "basic" "Foo" demo_fs))
     = map snd (written (generate "basic" "Foo" empty_fs)).
Proof. vm_compute. repeat split; reflexivity. Qed.

(** ** C9: no [contracts] directory *)




(** ** C8: the required elements *)

Lemma idiom_lines_battery (contract_code : string) :
  idiom_lines (battery contract_code) = battery contract_code.
Proof.
  unfold idiom_lines, battery, idiom_line, checks. cbn [map fst snd].
  destruct (contains "gl.Contract" contract_code),
           (contains "@gl.public" contract_code),
           (contains "def __init__" contract_code); reflexivity.
Qed.

(** C8, counterexample.  The file [marks.py] holds every pattern of the
    required elements, in a comment behind a line the parser refuses.
    [test] returns after the syntax error: no required element is looked
    for, none is reported. *)
Lemma refused_text_is_not_checked :
  open_r "marks.py" demo_fs = inr "def f(:  # gl.Contract, @gl.public, def __init__"
  /\ contains "gl.Contract" "def f(:  # gl.Contract, @gl.public, def __init__" = true
  /\ contains "@gl.public" "def f(:  # gl.Contract, @gl.public, def __init__" = true
  /\ contains "def __init__" "def f(:  # gl.Contract, @gl.public, def __init__" = true
  /\ result (test demo_compile "marks.py" demo_fs) = Return tt
  /\ printed (test demo_compile "marks.py" demo_fs) =
       [ testing;
         Info "Testing: marks.py";
         Error "Syntax error: invalid syntax (marks.py, line 1)" ]
  /\ idiom_lines (printed (test demo_compile "marks.py" demo_fs)) = [].
Proof. vm_compute. repeat split; reflexivity. Qed.

(** C8, as the code has it.  A required element is looked for with [in],
    which says exactly whether the pattern is a substring of the text.  On
    every run of [test] that gets past the parser the console holds, behind
    the syntax verdict and before the count, one line for each of the three
    elements, in the order [gl.Contract], [@gl.public], [def __init__],
    each decided by the text as it was read; these are all the lines about
    required elements.  A run that ends earlier shows none. *)
Theorem idiom_battery_fixed_order
    (py_compile : string -> string -> option exception)
    (contract_file : string) (fs : FS) :
  (forall pattern text, contains pattern text = true <-> occurs pattern text)
  /\ idiom_lines (printed (test py_compile contract_file fs)) =
       match open_r contract_file fs with
       | inr source =>
           match py_compile source contract_file with
           | None =>
               [ (if contains "gl.Contract" source
                  then Success "Inherits from gl.Contract"
                  else Warning "Missing: Inherits from gl.Contract");
                 (if contains "@gl.public" source
                  then Success "Has public methods"
                  else Warning "Missing: Has public methods");
                 (if contains "def __init__" source
                  then Success "Has constructor"
                  else Warning "Missing: Has constructor") ]
           | Some _ => []
           end
       | inl _ => []
       end
  /\ (forall source,
        open_r contract_file fs = inr source ->
        py_compile source contract_file = None ->
        printed (test py_compile contract_file fs) =
          [ testing;
            Info ("Testing: " +:+ contract_file);
            Success "Syntax check passed";
            (if contains "gl.Contract" source
             then Success "Inherits from gl.Contract"
             else Warning "Missing: Inherits from gl.Contract");
            (if contains "@gl.public" source
             then Success "Has public methods"
             else Warning "Missing: Has public methods");
            (if contains "def __init__" source
             then Success "Has constructor"
             else Warning "Missing: Has constructor");
            Info ("Public functions: " +:+ str_of_nat (count "@gl.public" source));
            basic_tests_passed;
            testnet_note ]).
Proof.
  split; [apply contains_occurs|]. split.
  - destruct (open_r contract_file fs) as [e|source] eqn:Hf.
    + destruct (os_exists contract_file fs) eqn:He.
      * now rewrite (test_unreadable _ _ _ e He Hf).
      * now rewrite (test_not_found _ _ _ He).
    + destruct (py_compile source contract_file) as [[e|class about]|] eqn:Hc.
      * now rewrite (test_syntax_error _ _ _ _ Hf _ Hc).
      * now rewrite (test_compile_raises _ _ _ _ Hf _ _ Hc).
      * rewrite (printed_test_accepted _ _ _ _ Hf Hc).
        unfold idiom_lines. rewrite !List.filter_app.
        fold (idiom_lines (battery source)). rewrite idiom_lines_battery.
        cbn. now rewrite ?app_nil_r.
  - intros source Hf Hc. now rewrite (printed_test_accepted _ _ _ _ Hf Hc).
Qed.

Lemma idiom_battery_fixed_order_witness :
  open_r "empty.py" demo_fs = inr ""
  /\ idiom_lines (printed (test demo_compile "empty.py" demo_fs)) =
       [ Warning "Missing: Inherits from gl.Contract";
         Warning "Missing: Has public methods";
         Warning "Missing: Has constructor" ].
Proof.
  split; [vm_compute; reflexivity|].
  exact (proj1 (proj2 (idiom_battery_fixed_order demo_compile "empty.py" demo_fs))).
Defined.

(** ** C10: the public-methods element and the count *)

Lemma count_line_inj (n m : nat) :
  Info ("Public functions: " +:+ str_of_nat n)
    = Info ("Public functions: " +:+ str_of_nat m) -> n = m.
Proof. intros [= H]. now apply str_of_nat_inj. Qed.

(** C10.  In the console of any run of [test], the element "Has public
    methods" is reported as present exactly when a count of at least one
    public function is reported: the one is [in] and the other [count] of
    the same pattern on the same text, and these agree on whether there is
    an occurrence. *)
Theorem public_check_iff_count
    (py_compile : string -> string -> option exception)
    (contract_file : string) (fs : FS) :
  (forall contract_code,
     contains "@gl.public" contract_code = true
     <-> 1 <= count "@gl.public" contract_code)
  /\ (check_passed "Has public methods" (printed (test py_compile contract_file fs)) = true
      <-> exists n, 1 <= n
            /\ In (Info ("Public functions: " +:+ str_of_nat n))
                  (printed (test py_compile contract_file fs))).
Proof.
  split; [intros contract_code; apply contains_count|].
  destruct (open_r contract_file fs) as [err|source] eqn:Hf.
  - destruct (os_exists contract_file fs) eqn:He.
    + rewrite (test_unreadable _ _ _ err He Hf). cbn.
      split; [discriminate|]. intros (n & _ & [H|[H|[]]]); discriminate.
    + rewrite (test_not_found _ _ _ He). cbn.
      split; [discriminate|]. intros (n & _ & [H|[H|[]]]); discriminate.
  - destruct (py_compile source contract_file) as [[e|class about]|] eqn:Hc.
    + rewrite (test_syntax_error _ _ _ _ Hf _ Hc). cbn.
      split; [discriminate|]. intros (n & _ & [H|[H|[H|[]]]]); discriminate.
    + rewrite (test_compile_raises _ _ _ _ Hf _ _ Hc). cbn.
      split; [discriminate|]. intros (n & _ & [H|[H|[]]]); discriminate.
    + rewrite (printed_test_accepted _ _ _ _ Hf Hc).
      unfold check_passed. rewrite !existsb_app.
      unfold battery, idiom_line, checks. cbn [map fst snd].
      pose proof (contains_count "@gl.public" source) as Hcount.
      destruct (contains "@gl.public" source) eqn:Hp.
      * split.
        -- intros _. exists (count "@gl.public" source).
           split; [now apply Hcount|].
           apply in_or_app. right. apply in_or_app. right. cbn. auto.
        -- intros _.
           destruct (contains "gl.Contract" source),
                    (contains "def __init__" source); reflexivity.
      * split.
        -- destruct (contains "gl.Contract" source),
                    (contains "def __init__" source); cbn; discriminate.
        -- intros (n & Hn & Hin).
           apply in_app_or in Hin as [Hin|Hin];
             [cbn in Hin; destruct Hin as [H|[H|[H|[]]]]; discriminate|].
           apply in_app_or in Hin as [Hin|Hin].
           ++ destruct (contains "gl.Contract" source),
                       (contains "def __init__" source);
                cbn in Hin; destruct Hin as [H|[H|[H|[]]]]; discriminate.
           ++ cbn in Hin. destruct Hin as [H|[H|[H|[]]]]; try discriminate.
              apply count_line_inj in H. subst n.
              apply Hcount in Hn. discriminate.
Qed.

(** ** Rendered contracts under [test]

    Whether the parser accepts a rendered contract is the parser's to say.
    What follows holds for any parser: a contract rendered from the
    registry holds every required element, whatever the name, so once it
    is accepted every element is reported as present. *)

Lemma registry_bodies_split (type : string) (t : template) :
  dict_get templates type = Some t ->
  code t = class_header +:+ after_header (code t).
Proof.
  intros H.
  destruct (templates_cases _ _ H) as [[_ ->]|[[_ ->]|[[_ ->]|[_ ->]]]];
    vm_compute; reflexivity.
Qed.

Lemma rendered_has_required_elements (type : string) (t : template)
    (name text : string) :
  dict_get templates type = Some t ->
  format (code t) name = Rendered text ->
  forall check, In check checks -> contains (fst check) text = true.
Proof.
  intros H Hf check Hin.
  rewrite (registry_bodies_split _ _ H) in Hf.
  assert (exists out, format class_header name = Rendered out) as [out Hout]
    by (eexists; vm_compute; reflexivity).
  rewrite (format_app _ _ _ _ Hout) in Hf.
  assert (exists rest, format (after_header (code t)) name = Rendered rest
                       /\ forall c, In c checks -> contains (fst c) rest = true)
    as (rest & Hrest & Hall).
  { destruct (templates_cases _ _ H) as [[_ ->]|[[_ ->]|[[_ ->]|[_ ->]]]];
      (eexists; split; [vm_compute; reflexivity|]);
      intros c [<-|[<-|[<-|[]]]]; vm_compute; reflexivity. }
  rewrite Hrest in Hf. injection Hf as <-.
  apply contains_app_r. now apply Hall.
Qed.

Lemma idiom_lines_all_present (contract_code : string) :
  (forall check, In check checks -> contains (fst check) contract_code = true) ->
  battery contract_code =
    [ Success "Inherits from gl.Contract";
      Success "Has public methods";
      Success "Has constructor" ].
Proof.
  intros Hall. unfold battery, idiom_line, checks. cbn [map fst snd].
  pose proof (Hall ("gl.Contract", "Inherits from gl.Contract")) as H1.
  pose proof (Hall ("@gl.public", "Has public methods")) as H2.
  pose proof (Hall ("def __init__", "Has constructor")) as H3.
  cbn [fst checks In] in H1, H2, H3.
  rewrite H1, H2, H3 by auto. reflexivity.
Qed.

Lemma accepted_report
    (py_compile : string -> string -> option exception)
    (contract_file contract_code : string) (fs : FS) :
  open_r contract_file fs = inr contract_code ->
  py_compile contract_code contract_file = None ->
  (forall check, In check checks -> contains (fst check) contract_code = true) ->
  result (test py_compile contract_file fs) = Return tt
  /\ syntax_ok (printed (test py_compile contract_file fs)) = true
  /\ idiom_lines (printed (test py_compile contract_file fs)) =
       [ Success "Inherits from gl.Contract";
         Success "Has public methods";
         Success "Has constructor" ].
Proof.
  intros Hfile Hc Hall.
  rewrite (printed_test_accepted _ _ _ _ Hfile Hc).
  split; [now rewrite (test_accepted _ _ _ _ Hfile Hc)|].
  split; [reflexivity|].
  unfold idiom_lines. rewrite !List.filter_app.
  fold (idiom_lines (battery contract_code)). rewrite idiom_lines_battery.
  rewrite (idiom_lines_all_present _ Hall). reflexivity.
Qed.

Lemma rendered_contract_report
    (py_compile : string -> string -> option exception)
    (type name text contract_file : string) (t : template) (fs : FS) :
  dict_get templates type = Some t ->
  format (code t) name = Rendered text ->
  open_r contract_file fs = inr text ->
  py_compile text contract_file = None ->
  syntax_ok (printed (test py_compile contract_file fs)) = true
  /\ idiom_lines (printed (test py_compile contract_file fs)) =
       [ Success "Inherits from gl.Contract";
         Success "Has public methods";
         Success "Has constructor" ].
Proof.
  intros H Hf Hfile Hc.
  apply (accepted_report _ _ _ _ Hfile Hc).
  exact (rendered_has_required_elements _ _ _ _ H Hf).
Qed.

(** The [basic] template rendered for [Foo] declares two public methods. *)
Example basic_Foo_public_functions :
  exists text,
    format basic_code "Foo" = Rendered text
    /\ count "@gl.public" text = 2
    /\ contains "def __init__" text = true.
Proof. eexists. vm_compute. repeat split; reflexivity. Qed.

(** * More of the commands *)

(** ** Commands that only read *)

Lemma read_only_bind {A B : Type} (m : M A) (k : A -> M B) :
  read_only m -> (forall a, read_only (k a)) -> read_only (m ≫= k).
Proof.
  intros Hm Hk fs. specialize (Hm fs). unfold mbind, M_bind.
  destruct (m fs) as [[a|e|] fs1 t1]; cbn [fs_after] in Hm;
    rewrite written_run in Hm; destruct Hm as [-> Hw].
  - specialize (Hk a fs). destruct (k a fs) as [r fs2 t2].
    cbn [fs_after] in *. rewrite written_run in *. destruct Hk as [-> Hw2].
    split; [reflexivity|]. now rewrite omap_app, Hw, Hw2.
  - split; [reflexivity|]. now rewrite written_run.
  - split; [reflexivity|]. now rewrite written_run.
Qed.

Lemma read_only_ret {A : Type} (a : A) : read_only (mret a : M A).
Proof. intros fs. split; reflexivity. Qed.

Lemma read_only_raise {A : Type} (e : exception) : read_only (raise e : M A).
Proof. intros fs. split; reflexivity. Qed.

Lemma read_only_echo_line (l : line) : read_only (echo_line l).
Proof. intros fs. split; reflexivity. Qed.

Lemma read_only_os_path_exists (s : string) : read_only (os_path_exists s).
Proof. intros fs. split; reflexivity. Qed.

Lemma read_only_path_exists (p : path) : read_only (path_exists p).
Proof.
  intros fs. unfold path_exists.
  destruct (stat fs (path_str p)) as [[| | |]|n]; split; reflexivity.
Qed.

Lemma read_only_read_text (s : string) : read_only (read_text s).
Proof. intros fs. unfold read_text. destruct (open_r s fs); split; reflexivity. Qed.

Lemma read_only_for_each {A : Type} (items : list A) (body : A -> M unit) :
  (forall x, read_only (body x)) -> read_only (for_each items body).
Proof.
  intros H. induction items as [|x items IH]; cbn [for_each].
  - apply read_only_ret.
  - apply read_only_bind; [apply H|intros _; exact IH].
Qed.

Lemma read_only_json_get (d : json) (key : string) : read_only (json_get d key).
Proof.
  destruct d; cbn [json_get]; try apply read_only_raise.
  destruct (dict_get members key); apply read_only_ret.
Qed.

Lemma read_only_json_in (key : string) (x : json) : read_only (json_in key x).
Proof. destruct x; cbn [json_in]; (apply read_only_raise || apply read_only_ret). Qed.

Lemma read_only_json_getitem (x : json) (key : string) :
  read_only (json_getitem x key).
Proof.
  destruct x; cbn [json_getitem]; try apply read_only_raise.
  destruct (dict_get members key); [apply read_only_ret|apply read_only_raise].
Qed.

Lemma read_only_str_format (body name : string) : read_only (str_format body name).
Proof.
  unfold str_format. destruct (format body name) as [text|[]|];
    first [apply read_only_ret | apply read_only_raise | intros fs; split; reflexivity].
Qed.

Ltac read_only_step :=
  first
    [ apply read_only_bind; [|intros ?]
    | apply read_only_ret
    | apply read_only_raise
    | apply read_only_echo_line
    | apply read_only_os_path_exists
    | apply read_only_path_exists
    | apply read_only_read_text
    | apply read_only_json_get
    | apply read_only_json_in
    | apply read_only_json_getitem
    | apply read_only_for_each; intros ?
    | match goal with
      | |- read_only (if ?b then _ else _) => destruct b
      | |- read_only (match ?x with _ => _ end) => destruct x
      end ].

(** X1.  [test] reads and prints, nothing more: whatever the parser
    answers and however the run ends, the file system is the one it
    started from and no file was written. *)
Theorem test_read_only
    (py_compile : string -> string -> option exception) (contract_file : string) :
  read_only (test py_compile contract_file).
Proof.
  unfold test, check_element, echo, print_info, print_error, print_success,
    print_warning.
  repeat read_only_step.
Qed.

(** X2.  [deploy], [status] and [templates] change nothing either: no
    file is written and none is touched, whatever the configuration file
    holds and whether or not [deploy] ends in an exception. *)
Theorem display_commands_read_only
    (json_load : string -> option json) (py_repr : json -> string)
    (contract_file network address : string) :
  read_only (deploy json_load py_repr contract_file network)
  /\ read_only (status address)
  /\ read_only templates_command.
Proof.
  unfold deploy, show_rpc, status, templates_command, echo, print_info,
    print_error.
  repeat split; repeat read_only_step.
Qed.

(** ** Commands that write *)

Lemma open_w_not_dir (p : path) (fs : FS) (loc : location) :
  open_w p fs = inr loc ->
  locate fs (path_str p) = inr loc /\ node_at fs loc <> Some Dir.
Proof.
  unfold open_w. destruct (locate fs (path_str p)) as [e|l]; [discriminate|].
  destruct (node_at fs l) as [[| |]|] eqn:E; try discriminate;
    intros [= <-]; split; congruence.
Qed.

Lemma may_mkdir_fresh (p : path) (fs : FS) (loc : location) :
  may_mkdir p fs = inr loc ->
  locate fs (path_str p) = inr loc /\ node_at fs loc = None.
Proof.
  unfold may_mkdir. destruct (locate fs (path_str p)) as [e|l]; [discriminate|].
  destruct (node_at fs l) eqn:E; [discriminate|]. intros [= <-]. now split.
Qed.

Lemma keeps_entries_bind {A B : Type} (m : M A) (k : A -> M B) :
  keeps_entries m -> (forall a, keeps_entries (k a)) -> keeps_entries (m ≫= k).
Proof.
  intros Hm Hk fs. specialize (Hm fs). unfold mbind, M_bind.
  destruct (m fs) as [[a|e|] fs1 t1]; cbn [fs_after] in *; try exact Hm.
  specialize (Hk a fs1). destruct (k a fs1) as [r fs2 t2]. cbn [fs_after] in *.
  now apply (extends_trans _ fs1).
Qed.

Lemma read_only_keeps_entries {A : Type} (m : M A) : read_only m -> keeps_entries m.
Proof. intros H fs. rewrite (proj1 (H fs)). apply extends_refl. Qed.

Lemma keeps_entries_write_text (p : path) (content : string) :
  keeps_entries (write_text p content).
Proof.
  intros fs. unfold write_text. destruct (open_w p fs) as [e|loc] eqn:Ho.
  - apply extends_refl.
  - apply extends_write. now apply (open_w_not_dir p).
Qed.

Lemma keeps_entries_mkdir (p : path) : keeps_entries (mkdir p).
Proof.
  intros fs. unfold mkdir. destruct (may_mkdir p fs) as [e|loc] eqn:Ho.
  - apply extends_refl.
  - apply extends_mkdir. now apply (may_mkdir_fresh p).
Qed.

Lemma keeps_entries_for_each {A : Type} (items : list A) (body : A -> M unit) :
  (forall x, keeps_entries (body x)) -> keeps_entries (for_each items body).
Proof.
  intros H. induction items as [|x items IH]; cbn [for_each].
  - apply read_only_keeps_entries, read_only_ret.
  - apply keeps_entries_bind; [apply H|intros _; exact IH].
Qed.

Ltac keeps_entries_step :=
  first
    [ apply keeps_entries_bind; [|intros ?]
    | apply keeps_entries_write_text
    | apply keeps_entries_mkdir
    | apply keeps_entries_for_each; intros ?
    | apply read_only_keeps_entries;
      first [ apply read_only_ret | apply read_only_echo_line
            | apply read_only_path_exists | apply read_only_str_format ]
    | match goal with
      | |- keeps_entries (if ?b then _ else _) => destruct b
      | |- keeps_entries (match ?x with _ => _ end) => destruct x
      end ].

Lemma keeps_entries_generate (type name : string) : keeps_entries (generate type name).
Proof.
  unfold generate, echo, print_info, print_error, print_success, print_warning.
  repeat keeps_entries_step.
Qed.

Lemma keeps_entries_init (json_dump : json -> string) (project_name template : string) :
  keeps_entries (init json_dump project_name template).
Proof.
  unfold init, echo, print_info, print_error, print_success, print_warning.
  repeat keeps_entries_step.
Qed.

(** X3.  [generate] and [init] only add: after either command the working
    directory is the same, a directory is still a directory and a file is
    still a file, so every name that stood for something still does, for
    every key, name and template and whether or not the command ends in an
    exception.  ([generate] may replace what a file holds.) *)
Theorem writers_keep_entries
    (json_dump : json -> string) (type name project_name template : string) :
  keeps_entries (generate type name)
  /\ keeps_entries (init json_dump project_name template)
  /\ (forall fs s,
        os_exists s fs = true ->
        os_exists s (fs_after (generate type name fs)) = true
        /\ os_exists s (fs_after (init json_dump project_name template fs)) = true).
Proof.
  split; [apply keeps_entries_generate|]. split; [apply keeps_entries_init|].
  intros fs s H. split; (eapply os_exists_mono; [|exact H]).
  - apply keeps_entries_generate.
  - apply keeps_entries_init.
Qed.

(** ** More of [generate] *)

(** X4.  [generate] touches at most the one file it opens, at the place
    its path stands for: every other place holds afterwards what it held
    before, the working directory and the directories are the same, for
    every key, known or not, and every name. *)
Theorem generate_touches_one_file (type name : string) (fs : FS) (loc : location) :
  open_w (path_div (target_dir fs) (name +:+ ".py")) fs <> inr loc ->
  node_at (fs_after (generate type name fs)) loc = node_at fs loc
  /\ cwd (fs_after (generate type name fs)) = cwd fs
  /\ (forall l, node_at (fs_after (generate type name fs)) l = Some Dir
                <-> node_at fs l = Some Dir).
Proof.
  intros Hp. destruct (dict_get templates type) as [t|] eqn:H.
  - destruct (registry_renders _ _ name H) as [text Hf].
    destruct (open_w (path_div (target_dir fs) (name +:+ ".py")) fs) as [e|loc0] eqn:Ho.
    + destruct (generate_raises _ _ _ _ fs H Hf e Ho) as (_ & -> & _).
      repeat split; auto.
    + destruct (generate_returns _ _ _ _ fs H Hf loc0 Ho) as (_ & -> & _).
      destruct (open_w_not_dir _ _ _ Ho) as [_ Hnd].
      split; [apply node_at_write_other; congruence|]. split; [reflexivity|].
      intros l. destruct (decide (l = loc0)) as [->|Hne].
      * rewrite node_at_write_same by exact Hnd. split; [discriminate|tauto].
      * now rewrite node_at_write_other.
  - rewrite (generate_unknown _ _ _ H). repeat split; auto.
Qed.

Lemma generate_touches_one_file_witness :
  open_w (path_div (target_dir demo_fs) ("Foo" +:+ ".py")) demo_fs
    <> inr ["home"; "dev"; "bad.py"]
  /\ node_at (fs_after (generate "basic" "Foo" demo_fs)) ["home"; "dev"; "bad.py"]
       = Some (File "def f(:").
Proof.
  assert (open_w (path_div (target_dir demo_fs) ("Foo" +:+ ".py")) demo_fs
          <> inr ["home"; "dev"; "bad.py"]) as Hp
    by (vm_compute; discriminate).
  split; [exact Hp|].
  rewrite (proj1 (generate_touches_one_file "basic" "Foo" demo_fs _ Hp)).
  vm_compute. reflexivity.
Defined.

(** The name [../bad] in [contracts] stands for [bad.py] in the working
    directory: that is the file [generate] replaces. *)
Example generate_through_dots :
  path_str (path_div (target_dir demo_fs) ("../bad" +:+ ".py")) = "contracts/../bad.py"
  /\ open_w (path_div (target_dir demo_fs) ("../bad" +:+ ".py")) demo_fs
       = inr ["home"; "dev"; "bad.py"]
  /\ exists text,
       format basic_code "../bad" = Rendered text
       /\ node_at (fs_after (generate "basic" "../bad" demo_fs)) ["home"; "dev"; "bad.py"]
            = Some (File text).
Proof.
  split; [vm_compute; reflexivity|]. split; [vm_compute; reflexivity|].
  eexists. split; vm_compute; reflexivity.
Qed.

(** X5.  Running [generate] again with the same arguments repeats the
    first run exactly: the same lines, the same write or the same
    exception, and the file system the first run left. *)
Theorem generate_twice (type name : string) (fs : FS) :
  generate type name (fs_after (generate type name fs)) = generate type name fs.
Proof.
  destruct (dict_get templates type) as [t|] eqn:H.
  - destruct (registry_renders _ _ name H) as [text Hf].
    exact (generate_again _ _ _ _ fs H Hf).
  - now rewrite !(generate_unknown _ _ _ H).
Qed.

Lemma append_inj_r (a b c : string) : a +:+ c = b +:+ c -> a = b.
Proof.
  revert b. induction a as [|x a IH]; intros [|y b] H; cbn in H.
  - reflexivity.
  - apply (f_equal String.length) in H. cbn in H.
    rewrite length_append in H. lia.
  - apply (f_equal String.length) in H. cbn in H.
    rewrite length_append in H. lia.
  - injection H as -> H. f_equal. now apply IH.
Qed.

Lemma registry_render_shape (type : string) (t : template) :
  dict_get templates type = Some t ->
  exists rest, forall name,
    format (code t) name = Rendered (rendered_header +:+ name +:+ rest).
Proof.
  intros H.
  assert (exists rest, forall name,
            format (after_header (code t)) name = Rendered rest) as [rest Hrest].
  { destruct (templates_cases _ _ H) as [[_ ->]|[[_ ->]|[[_ ->]|[_ ->]]]];
      eexists; intros name; vm_compute; reflexivity. }
  exists rest. intros name.
  rewrite (registry_bodies_split _ _ H).
  change class_header
    with ((unlines [ "# {{ " +:+ dq +:+ "Depends" +:+ dq +:+ ": " +:+ dq
                     +:+ "py-genlayer:test" +:+ dq +:+ " }}";
                     "from genlayer import *"; "" ] +:+ "class ") +:+ "{name}").
  rewrite append_assoc.
  rewrite (format_app _ _ name rendered_header) by (vm_compute; reflexivity).
  unfold format. cbn [String.append format_scan is_char String.eqb Ascii.eqb
                      Bool.eqb orb emit].
  fold (format (after_header (code t)) name). now rewrite Hrest.
Qed.

(** X6.  In a contract rendered from the registry the name stands
    exactly once, as it was given, between an opening and a remainder that
    do not depend on it; so braces in a name are not read as fields, and
    two names give the same contract only when they are the same name. *)
Theorem rendered_name_verbatim (type : string) (t : template) :
  dict_get templates type = Some t ->
  exists rest,
    (forall name,
       format (code t) name = Rendered (rendered_header +:+ name +:+ rest))
    /\ (forall name1 name2,
          format (code t) name1 = format (code t) name2 -> name1 = name2).
Proof.
  intros H. destruct (registry_render_shape _ _ H) as [rest Hrest].
  exists rest. split; [exact Hrest|].
  intros name1 name2. rewrite !Hrest. intros [= E].
  now apply append_inj_r in E.
Qed.

Lemma rendered_name_verbatim_witness :
  dict_get templates "defi" = Some (mkTemplate "Simple DeFi lending contract" defi_code)
  /\ exists rest,
       (forall name,
          format defi_code name = Rendered (rendered_header +:+ name +:+ rest))
       /\ (forall name1 name2,
             format defi_code name1 = format defi_code name2 -> name1 = name2).
Proof.
  split; [reflexivity|].
  exact (rendered_name_verbatim "defi"
           (mkTemplate "Simple DeFi lending contract" defi_code) eq_refl).
Defined.

(** What is read of a text that ends in [b] ends in what is read of [b]. *)
Lemma translate_newlines_app (a b : string) :
  forall after_cr, exists after_cr',
    translate_newlines after_cr (a +:+ b)
      = translate_newlines after_cr a +:+ translate_newlines after_cr' b.
Proof.
  induction a as [|c a IH]; intros after_cr.
  - now exists after_cr.
  - simpl String.append. cbn [translate_newlines].
    destruct (Ascii.eqb c (ascii_of_nat 13)).
    { destruct (IH true) as [f ->]. now exists f. }
    destruct (Ascii.eqb c (ascii_of_nat 10)).
    { destruct after_cr; destruct (IH false) as [f ->]; now exists f. }
    destruct (IH false) as [f ->]. now exists f.
Qed.

(** The required elements of a rendered contract stand behind the name,
    where reading the file back finds them whatever the name holds. *)
Lemma rendered_elements_read_back (type : string) (t : template) (name text : string) :
  dict_get templates type = Some t ->
  format (code t) name = Rendered text ->
  forall check, In check checks ->
    contains (fst check) (universal_newlines text) = true.
Proof.
  intros H Hf check Hin.
  assert (exists rest,
            (forall name, format (after_header (code t)) name = Rendered rest)
            /\ forall after_cr c, In c checks ->
                 contains (fst c) (translate_newlines after_cr rest) = true)
    as (rest & Hrest & Hall).
  { destruct (templates_cases _ _ H) as [[_ ->]|[[_ ->]|[[_ ->]|[_ ->]]]];
      (eexists; split; [intros n; vm_compute; reflexivity|]);
      intros [|] c [<-|[<-|[<-|[]]]]; vm_compute; reflexivity. }
  rewrite (registry_bodies_split _ _ H) in Hf.
  assert (exists out, format class_header name = Rendered out) as [out Hout]
    by (eexists; vm_compute; reflexivity).
  rewrite (format_app _ _ _ _ Hout), Hrest in Hf. injection Hf as <-.
  unfold universal_newlines.
  destruct (translate_newlines_app out rest false) as [f ->].
  apply contains_app_r. now apply Hall.
Qed.

(** X7.  What [generate] makes, [test] takes.  When [generate] returns,
    with or without a directory [contracts], the file it wrote is the file
    [test] reads under the path [generate] printed, as the text it wrote
    with the newlines of text mode; when the parser accepts that text,
    [test] returns and reports the three required elements as present. *)
Theorem generated_contract_passes_test
    (py_compile : string -> string -> option exception)
    (type name text : string) (t : template) (fs : FS) :
  dict_get templates type = Some t ->
  format (code t) name = Rendered text ->
  result (generate type name fs) = Return tt ->
  py_compile (universal_newlines text)
             (path_str (path_div (target_dir fs) (name +:+ ".py"))) = None ->
  let contract_file := path_str (path_div (target_dir fs) (name +:+ ".py")) in
  let fs' := fs_after (generate type name fs) in
  In (Echo ("  genlayer test " +:+ contract_file)) (printed (generate type name fs))
  /\ open_r contract_file fs' = inr (universal_newlines text)
  /\ result (test py_compile contract_file fs') = Return tt
  /\ syntax_ok (printed (test py_compile contract_file fs')) = true
  /\ idiom_lines (printed (test py_compile contract_file fs'))
       = [ Success "Inherits from gl.Contract";
           Success "Has public methods";
           Success "Has constructor" ].
Proof.
  intros H Hf Hr Hc contract_file fs'.
  destruct (generate_returned _ _ _ _ fs H Hf Hr) as [loc Ho].
  destruct (generate_returns _ _ _ _ fs H Hf loc Ho) as (_ & _ & _ & Hnode & Hext).
  destruct (open_w_not_dir _ _ _ Ho) as [Hl _].
  assert (open_r contract_file fs' = inr (universal_newlines text)) as Hfile.
  { unfold open_r, stat. subst contract_file fs'.
    now rewrite (locate_mono _ _ _ _ Hext Hl), Hnode. }
  split.
  { pose proof (generate_known _ _ _ _ fs H Hf) as Hrun. cbv zeta in Hrun.
    rewrite Ho in Hrun. rewrite Hrun, printed_run, omap_app, printed_opening.
    apply in_or_app. right. cbn. auto 10. }
  split; [exact Hfile|].
  apply (accepted_report _ _ _ _ Hfile Hc).
  exact (rendered_elements_read_back _ _ _ _ H Hf).
Qed.

Lemma generated_contract_passes_test_witness :
  dict_get templates "basic" = Some (mkTemplate "Basic contract with storage" basic_code)
  /\ result (generate "basic" "Foo" demo_fs) = Return tt
  /\ path_str (path_div (target_dir demo_fs) ("Foo" +:+ ".py")) = "contracts/Foo.py"
  /\ idiom_lines
       (printed (test demo_compile "contracts/Foo.py"
                   (fs_after (generate "basic" "Foo" demo_fs))))
       = [ Success "Inherits from gl.Contract";
           Success "Has public methods";
           Success "Has constructor" ].
Proof.
  assert (result (generate "basic" "Foo" demo_fs) = Return tt) as Hr
    by (vm_compute; reflexivity).
  assert (exists text, format basic_code "Foo" = Rendered text
                       /\ demo_compile (universal_newlines text) "contracts/Foo.py" = None)
    as (text & Hf & Hc) by (eexists; split; vm_compute; reflexivity).
  split; [reflexivity|]. split; [exact Hr|]. split; [vm_compute; reflexivity|].
  exact (proj2 (proj2 (proj2 (proj2
    (generated_contract_passes_test demo_compile "basic" "Foo" text
       (mkTemplate "Basic contract with storage" basic_code) demo_fs
       eq_refl Hf Hr Hc))))).
Defined.

(** ** More of [test] *)

(** X8.  A name that stands for no regular file with a text never reaches
    the parser.  Where nothing is found under the name, [test] says so and
    returns; where a directory is found, or a file whose bytes are no text,
    the exception of [open] or [read] leaves [test] behind the line that
    names the file. *)
Theorem test_without_a_file
    (py_compile other_compile : string -> string -> option exception)
    (contract_file : string) (fs : FS) :
  match stat fs contract_file with
  | inr (File _) => True
  | inl _ =>
      test py_compile contract_file fs = test other_compile contract_file fs
      /\ result (test py_compile contract_file fs) = Return tt
      /\ printed (test py_compile contract_file fs)
           = [ testing; Error ("Contract file not found: " +:+ contract_file) ]
  | inr Dir =>
      test py_compile contract_file fs = test other_compile contract_file fs
      /\ result (test py_compile contract_file fs)
           = Raise (OtherError "IsADirectoryError" contract_file)
      /\ printed (test py_compile contract_file fs)
           = [ testing; Info ("Testing: " +:+ contract_file) ]
  | inr Blob =>
      test py_compile contract_file fs = test other_compile contract_file fs
      /\ result (test py_compile contract_file fs)
           = Raise (OtherError "UnicodeDecodeError" contract_file)
      /\ printed (test py_compile contract_file fs)
           = [ testing; Info ("Testing: " +:+ contract_file) ]
  end.
Proof.
  destruct (stat fs contract_file) as [e|[|text|]] eqn:Hs; [| |exact I|].
  - assert (os_exists contract_file fs = false) as He
      by (unfold os_exists; now rewrite Hs).
    rewrite !(test_not_found _ _ _ He). repeat split.
  - assert (os_exists contract_file fs = true) as He
      by (unfold os_exists; now rewrite Hs).
    assert (open_r contract_file fs
            = inl (OtherError "IsADirectoryError" contract_file)) as Hf
      by (unfold open_r; now rewrite Hs).
    rewrite !(test_unreadable _ _ _ _ He Hf). repeat split.
  - assert (os_exists contract_file fs = true) as He
      by (unfold os_exists; now rewrite Hs).
    assert (open_r contract_file fs
            = inl (OtherError "UnicodeDecodeError" contract_file)) as Hf
      by (unfold open_r; now rewrite Hs).
    rewrite !(test_unreadable _ _ _ _ He Hf). repeat split.
Qed.

(** The working directory under the name [.], a directory under its name,
    a picture, and two names that stand for nothing. *)
Example test_without_a_file_examples :
  result (test demo_compile "." demo_fs) = Raise (OtherError "IsADirectoryError" ".")
  /\ result (test demo_compile "contracts" demo_fs)
       = Raise (OtherError "IsADirectoryError" "contracts")
  /\ result (test demo_compile "logo.png" demo_fs)
       = Raise (OtherError "UnicodeDecodeError" "logo.png")
  /\ printed (test demo_compile "" demo_fs)
       = [ testing; Error "Contract file not found: " ]
  /\ printed (test demo_compile "bad.py/x" demo_fs)
       = [ testing; Error "Contract file not found: bad.py/x" ]
  /\ printed (test demo_compile "./contracts/../bad.py" demo_fs)
       = [ testing;
           Info "Testing: ./contracts/../bad.py";
           Error "Syntax error: invalid syntax (./contracts/../bad.py, line 1)" ].
Proof. vm_compute. repeat split; reflexivity. Qed.

(** X9.  The required elements never change how [test] ends.  Once the
    parser has accepted the text, [test] returns and closes the console
    with the line that the basic tests passed, whatever the text holds; an
    element that is missing shows as a warning and as nothing else. *)
Theorem test_passes_whatever_the_checks
    (py_compile : string -> string -> option exception)
    (contract_file contract_code : string) (fs : FS) :
  open_r contract_file fs = inr contract_code ->
  py_compile contract_code contract_file = None ->
  result (test py_compile contract_file fs) = Return tt
  /\ (exists report,
        printed (test py_compile contract_file fs)
          = report ++ [ basic_tests_passed; testnet_note ])
  /\ (forall check, In check checks ->
        check_failed (snd check) (printed (test py_compile contract_file fs))
          = negb (contains (fst check) contract_code))
  /\ forall l, In l (printed (test py_compile contract_file fs)) ->
       match l with Error _ => False | _ => True end.
Proof.
  intros Hf Hc. rewrite (printed_test_accepted _ _ _ _ Hf Hc).
  split; [now rewrite (test_accepted _ _ _ _ Hf Hc)|]. split.
  { exists ([ testing;
               Info ("Testing: " +:+ contract_file);
               Success "Syntax check passed" ]
             ++ battery contract_code
             ++ [ Info ("Public functions: "
                        +:+ str_of_nat (count "@gl.public" contract_code)) ]).
    now rewrite <- !app_assoc. }
  unfold battery, idiom_line, checks, check_failed. cbn [map fst snd].
  split.
  - intros check [<-|[<-|[<-|[]]]]; cbn [fst snd];
      destruct (contains "gl.Contract" contract_code),
               (contains "@gl.public" contract_code),
               (contains "def __init__" contract_code); reflexivity.
  - intros l Hin.
    destruct (contains "gl.Contract" contract_code),
             (contains "@gl.public" contract_code),
             (contains "def __init__" contract_code);
      cbn in Hin; intuition (subst; exact I).
Qed.

Lemma test_passes_whatever_the_checks_witness :
  open_r "empty.py" demo_fs = inr ""
  /\ demo_compile "" "empty.py" = None
  /\ result (test demo_compile "empty.py" demo_fs) = Return tt
  /\ check_failed "Has constructor" (printed (test demo_compile "empty.py" demo_fs))
       = true.
Proof.
  assert (open_r "empty.py" demo_fs = inr "") as Hf by (vm_compute; reflexivity).
  split; [exact Hf|]. split; [reflexivity|].
  pose proof (test_passes_whatever_the_checks demo_compile "empty.py" "" demo_fs
                Hf eq_refl) as (Hr & _ & Hall & _).
  split; [exact Hr|].
  exact (Hall ("def __init__", "Has constructor") ltac:(cbn; auto)).
Defined.

(** ** [templates] and the registry *)

(** X10.  The list [templates] shows and the registry [generate] reads
    name the same keys in the same order: a key is listed exactly when
    [generate] knows it. *)
Theorem templates_list_matches_registry (key : string) :
  map fst templates_list = keys templates
  /\ ((exists desc, In (key, desc) templates_list)
      <-> dict_get templates key <> None).
Proof.
  split; [reflexivity|]. split.
  - intros [desc [[= <- _]|[[= <- _]|[[= <- _]|[[= <- _]|[]]]]]]; discriminate.
  - unfold templates. cbn [dict_get]. unfold templates_list.
    destruct (String.eqb_spec key "basic") as [->|_]; [intros _; eexists; cbn; eauto|].
    destruct (String.eqb_spec key "oracle") as [->|_]; [intros _; eexists; cbn; eauto|].
    destruct (String.eqb_spec key "insurance") as [->|_];
      [intros _; eexists; cbn; eauto 6|].
    destruct (String.eqb_spec key "defi") as [->|_]; [intros _; eexists; cbn; eauto 6|].
    congruence.
Qed.

(** ** [init] *)

Lemma path_exists_true (p : path) (fs : FS) :
  fs_exists p fs = true -> path_exists p fs = mkRun (Return true) fs [].
Proof.
  unfold path_exists, fs_exists, os_exists.
  destruct (stat fs (path_str p)) as [[| | |]|n]; (discriminate || reflexivity).
Qed.

Lemma init_refused (json_dump : json -> string) (project_name template : string)
    (fs : FS) :
  fs_exists (Path project_name) fs = true ->
  init json_dump project_name template fs =
    mkRun (Return tt) fs
      [ Print (Echo (nl +:+ Colors.BOLD +:+ "🚀 GenLayer DevKit" +:+ Colors.ENDC));
        Print (Echo ("Creating new project: " +:+ Colors.CYAN +:+ project_name
                     +:+ Colors.ENDC +:+ nl));
        Print (Error ("Directory '" +:+ project_name +:+ "' already exists!")) ].
Proof.
  intros H. unfold init. cbv beta iota zeta delta [mbind M_bind echo echo_line].
  rewrite (path_exists_true _ _ H). reflexivity.
Qed.

Lemma fs_exists_dot (fs : FS) : fs_exists (Path ".") fs = true.
Proof.
  unfold fs_exists, os_exists, stat. change (path_str (Path ".")) with ".".
  change (locate fs ".") with (walk fs (cwd fs) ["."]).
  cbn [walk]. rewrite node_at_cwd. cbn. now rewrite node_at_cwd.
Qed.

(** X11.  [init] leaves what exists alone.  When anything exists under
    the project name, a file as well as a directory, and always for the
    name [.], it prints that the directory exists and returns: nothing is
    created, written or changed. *)
Theorem init_refuses_existing
    (json_dump : json -> string) (project_name template : string) (fs : FS) :
  fs_exists (Path project_name) fs = true ->
  result (init json_dump project_name template fs) = Return tt
  /\ fs_after (init json_dump project_name template fs) = fs
  /\ written (init json_dump project_name template fs) = []
  /\ In (Error ("Directory '" +:+ project_name +:+ "' already exists!"))
        (printed (init json_dump project_name template fs))
  /\ fs_after (init json_dump "." template fs) = fs.
Proof.
  intros H. rewrite (init_refused _ _ _ _ H).
  rewrite (init_refused json_dump "." template fs) by apply fs_exists_dot.
  repeat split. cbn. auto.
Qed.

Lemma init_refuses_existing_witness :
  fs_exists (Path "bad.py") demo_fs = true
  /\ fs_after (init demo_json_dump "bad.py" "basic" demo_fs) = demo_fs.
Proof.
  assert (fs_exists (Path "bad.py") demo_fs = true) as H by (vm_compute; reflexivity).
  split; [exact H|].
  exact (proj1 (proj2 (init_refuses_existing demo_json_dump "bad.py" "basic"
                         demo_fs H))).
Defined.

(** The empty name and the names of the directories around are taken as
    well: [Path('')] is the working directory. *)
Example init_refuses_examples :
  path_str (Path "") = "."
  /\ printed (init demo_json_dump "" "basic" empty_fs)
     = [ Echo (nl +:+ Colors.BOLD +:+ "🚀 GenLayer DevKit" +:+ Colors.ENDC);
         Echo ("Creating new project: " +:+ Colors.CYAN +:+ "" +:+ Colors.ENDC +:+ nl);
         Error "Directory '' already exists!" ]
  /\ fs_after (init demo_json_dump ".." "basic" empty_fs) = empty_fs
  /\ result (init demo_json_dump ".." "basic" empty_fs) = Return tt
  /\ result (init demo_json_dump "a/b" "basic" empty_fs)
     = Raise (OtherError "FileNotFoundError" "a/b")
  /\ fs_after (init demo_json_dump "a/b" "basic" empty_fs) = empty_fs.
Proof. vm_compute. repeat split; reflexivity. Qed.

(** *** Well-formed file systems *)

Lemma keeps_wf_bind {A B : Type} (m : M A) (k : A -> M B) :
  keeps_wf m -> (forall a, keeps_wf (k a)) -> keeps_wf (m ≫= k).
Proof.
  intros Hm Hk fs Hwf. specialize (Hm fs Hwf). unfold mbind, M_bind.
  destruct (m fs) as [[a|e|] fs1 t1]; cbn [fs_after] in *; try exact Hm.
  specialize (Hk a fs1 Hm). now destruct (k a fs1) as [r fs2 t2].
Qed.

Lemma read_only_keeps_wf {A : Type} (m : M A) : read_only m -> keeps_wf m.
Proof. intros H fs Hwf. now rewrite (proj1 (H fs)). Qed.

Lemma keeps_wf_write_text (p : path) (content : string) :
  keeps_wf (write_text p content).
Proof.
  intros fs Hwf. unfold write_text. destruct (open_w p fs) as [e|loc] eqn:Ho;
    [exact Hwf|].
  destruct (open_w_not_dir _ _ _ Ho) as [Hl Hnd]. cbn [fs_after].
  apply fs_wf_write; [exact Hwf|exact Hnd|]. now apply (locate_parent fs (path_str p)).
Qed.

Lemma keeps_wf_mkdir (p : path) : keeps_wf (mkdir p).
Proof.
  intros fs Hwf. unfold mkdir. destruct (may_mkdir p fs) as [e|loc] eqn:Ho;
    [exact Hwf|].
  destruct (may_mkdir_fresh _ _ _ Ho) as [Hl Hn]. cbn [fs_after].
  apply fs_wf_mkdir; [exact Hwf|exact Hn|].
  destruct (locate_parent fs (path_str p) loc Hwf Hl) as [H|H]; [congruence|exact H].
Qed.

Lemma keeps_wf_for_each {A : Type} (items : list A) (body : A -> M unit) :
  (forall x, keeps_wf (body x)) -> keeps_wf (for_each items body).
Proof.
  intros H. induction items as [|x items IH]; cbn [for_each].
  - apply read_only_keeps_wf, read_only_ret.
  - apply keeps_wf_bind; [apply H|intros _; exact IH].
Qed.

Ltac keeps_wf_step :=
  first
    [ apply keeps_wf_bind; [|intros ?]
    | apply keeps_wf_write_text
    | apply keeps_wf_mkdir
    | apply keeps_wf_for_each; intros ?
    | apply read_only_keeps_wf;
      first [ apply read_only_ret | apply read_only_echo_line
            | apply read_only_path_exists | apply read_only_str_format ]
    | match goal with
      | |- keeps_wf (if ?b then _ else _) => destruct b
      | |- keeps_wf (match ?x with _ => _ end) => destruct x
      end ].

Lemma keeps_wf_init (json_dump : json -> string) (project_name template : string) :
  keeps_wf (init json_dump project_name template).
Proof.
  unfold init, echo, print_info, print_error, print_success, print_warning.
  repeat keeps_wf_step.
Qed.

Lemma keeps_wf_generate (type name : string) : keeps_wf (generate type name).
Proof.
  unfold generate, echo, print_info, print_error, print_success, print_warning.
  repeat keeps_wf_step.
Qed.

Lemma fs_wf_flat (fs : FS) :
  (forall loc n, tree fs !! loc = Some n -> node_at fs (parent loc) = Some Dir) ->
  fs_wf fs.
Proof.
  intros H loc Hl. unfold node_at in Hl.
  destruct (is_prefix loc (cwd fs)) eqn:E.
  - apply node_at_above. now apply is_prefix_parent.
  - destruct (tree fs !! loc) as [n|] eqn:Hn; [|congruence]. now apply (H loc n).
Qed.

Lemma fs_wf_empty : fs_wf empty_fs.
Proof. apply fs_wf_flat. intros loc n H. cbn in H. now rewrite lookup_empty in H. Qed.

(** X13.  [init] keeps the file system well-formed: when every file and
    directory lay in a directory before, the same holds after, whether
    [init] made a project, refused to, or ended in an exception. *)
Theorem init_keeps_well_formed
    (json_dump : json -> string) (project_name template : string) (fs : FS) :
  fs_wf fs -> fs_wf (fs_after (init json_dump project_name template fs)).
Proof. apply keeps_wf_init. Qed.

Lemma init_keeps_well_formed_witness :
  fs_wf empty_fs
  /\ fs_wf (fs_after (init demo_json_dump "shop" "basic" empty_fs)).
Proof.
  split; [exact fs_wf_empty|].
  exact (init_keeps_well_formed demo_json_dump "shop" "basic" empty_fs fs_wf_empty).
Defined.


Lemma fs_after_bind {A B : Type} (m : M A) (k : A -> M B) (fs fs1 : FS) (a : A)
    (t1 : list event) :
  m fs = mkRun (Return a) fs1 t1 ->
  fs_after ((m ≫= k) fs) = fs_after (k a fs1).
Proof. intros H. unfold mbind, M_bind. rewrite H. now destruct (k a fs1). Qed.

Lemma path_exists_cases (p : path) (fs : FS) :
  path_exists p fs = mkRun OutOfModel fs []
  \/ path_exists p fs = mkRun (Return (fs_exists p fs)) fs [].
Proof.
  unfold path_exists. destruct (stat fs (path_str p)) as [[| | |]|n]; auto.
Qed.

Section InitRuns.

Variable json_dump : json -> string.
Variables (project_name : string) (fs : FS).

(** A run of [init] that ends before it has made the project directory
    changes nothing, whatever the template. *)
Lemma init_not_started (template : string) :
  path_exists (Path project_name) fs = mkRun OutOfModel fs []
  \/ (path_exists (Path project_name) fs = mkRun (Return false) fs []
      /\ exists e, may_mkdir (Path project_name) fs = inl e) ->
  fs_after (init json_dump project_name template fs) = fs
  /\ written (init json_dump project_name template fs) = []
  /\ result (init json_dump project_name template fs) <> Return tt.
Proof.
  intros [Hx|[Hx [e He]]]; unfold init;
    cbv beta iota zeta delta [mbind M_bind echo echo_line]; rewrite Hx.
  - repeat split. discriminate.
  - cbv beta iota. unfold mkdir. rewrite He. repeat split. discriminate.
Qed.

(** Once [init] has made the project directory, the directory is there
    when [init] ends, however it ends. *)
Lemma init_made (template : string) (loc : location) :
  path_exists (Path project_name) fs = mkRun (Return false) fs [] ->
  may_mkdir (Path project_name) fs = inr loc ->
  fs_exists (Path project_name)
    (fs_after (init json_dump project_name template fs)) = true.
Proof.
  intros Hx Hm. destruct (may_mkdir_fresh _ _ _ Hm) as [Hl Hn].
  unfold init.
  rewrite (fs_after_bind _ _ fs fs tt _ eq_refl).
  rewrite (fs_after_bind _ _ fs fs tt _ eq_refl). cbv zeta.
  rewrite (fs_after_bind _ _ fs fs false _ Hx). cbv iota.
  assert (mkdir (Path project_name) fs = mkRun (Return tt) (fs_mkdir loc fs) [])
    as Hmk by (unfold mkdir; now rewrite Hm).
  rewrite (fs_after_bind _ _ _ _ tt _ Hmk).
  match goal with
  | |- fs_exists _ (fs_after (?rest _)) = true =>
      assert (keeps_entries rest) as Hrest
  end.
  { unfold echo, print_success. repeat keeps_entries_step. }
  unfold fs_exists. eapply os_exists_mono; [apply Hrest|].
  unfold os_exists, stat.
  rewrite (locate_mono _ _ _ _ (extends_mkdir _ _ Hn) Hl), node_at_mkdir_same.
  reflexivity.
Qed.

End InitRuns.

(** X14.  [init] makes a project once.  After any run of [init] on a
    name, a second run on the same name, with whatever template, writes
    nothing and leaves the file system of the first; and when the first
    run returned, the second is refused: it returns after the line that
    the directory exists. *)
Theorem init_only_once
    (json_dump : json -> string) (project_name template again : string) (fs : FS) :
  fs_after (init json_dump project_name again
              (fs_after (init json_dump project_name template fs)))
    = fs_after (init json_dump project_name template fs)
  /\ written (init json_dump project_name again
                (fs_after (init json_dump project_name template fs))) = []
  /\ (result (init json_dump project_name template fs) = Return tt ->
      result (init json_dump project_name again
                (fs_after (init json_dump project_name template fs))) = Return tt
      /\ In (Error ("Directory '" +:+ project_name +:+ "' already exists!"))
            (printed (init json_dump project_name again
                        (fs_after (init json_dump project_name template fs))))).
Proof.
  assert (forall fs', fs_exists (Path project_name) fs' = true ->
            fs_after (init json_dump project_name again fs') = fs'
            /\ written (init json_dump project_name again fs') = []
            /\ result (init json_dump project_name again fs') = Return tt
            /\ In (Error ("Directory '" +:+ project_name +:+ "' already exists!"))
                  (printed (init json_dump project_name again fs'))) as Hrefused.
  { intros fs' H. rewrite (init_refused _ _ _ _ H). repeat split. cbn. auto. }
  assert (forall fs',
            fs_after (init json_dump project_name template fs) = fs' ->
            (fs_after (init json_dump project_name again fs') = fs'
             /\ written (init json_dump project_name again fs') = []
             /\ result (init json_dump project_name again fs') <> Return tt) ->
            result (init json_dump project_name template fs) <> Return tt ->
            fs_after (init json_dump project_name again fs') = fs'
            /\ written (init json_dump project_name again fs') = []
            /\ (result (init json_dump project_name template fs) = Return tt ->
                result (init json_dump project_name again fs') = Return tt
                /\ In (Error ("Directory '" +:+ project_name +:+ "' already exists!"))
                      (printed (init json_dump project_name again fs')))) as Hsame.
  { intros fs' _ (H1 & H2 & _) Hr. split; [exact H1|]. split; [exact H2|].
    intros H. contradiction. }
  destruct (path_exists_cases (Path project_name) fs) as [Hx|Hx].
  - destruct (init_not_started json_dump project_name fs template (or_introl Hx))
      as (Hfs & _ & Hr).
    rewrite Hfs. apply (Hsame fs); [exact Hfs| |exact Hr].
    exact (init_not_started json_dump project_name fs again (or_introl Hx)).
  - destruct (fs_exists (Path project_name) fs) eqn:He.
    + rewrite (init_refused _ _ template _ He).
      destruct (Hrefused fs He) as (H1 & H2 & H3 & H4). cbn [fs_after]. auto.
    + destruct (may_mkdir (Path project_name) fs) as [e|loc] eqn:Hm.
      * assert (path_exists (Path project_name) fs = mkRun (Return false) fs []
                /\ exists e, may_mkdir (Path project_name) fs = inl e) as Hstop
          by eauto.
        destruct (init_not_started json_dump project_name fs template (or_intror Hstop))
          as (Hfs & _ & Hr).
        rewrite Hfs. apply (Hsame fs); [exact Hfs| |exact Hr].
        exact (init_not_started json_dump project_name fs again (or_intror Hstop)).
      * destruct (Hrefused _ (init_made json_dump project_name fs template loc Hx Hm))
          as (H1 & H2 & H3 & H4). auto.
Qed.

(** X15.  The sample contract of a new project inherits from
    [gl.Contract] and has a constructor for every template; it declares
    public methods, two of them, exactly for the templates [basic] and
    [oracle].  Its first line keeps the doubled braces, since [init] writes
    the text as it stands. *)
Theorem sample_contract_elements (template : string) :
  contains "gl.Contract" (contract_content template) = true
  /\ contains "def __init__" (contract_content template) = true
  /\ (contains "@gl.public" (contract_content template) = true
      <-> template = "basic" \/ template = "oracle")
  /\ (count "@gl.public" (contract_content template)
      = if contains "@gl.public" (contract_content template) then 2 else 0)
  /\ String.prefix "# {{ " (contract_content template) = true.
Proof.
  unfold contract_content.
  destruct (String.eqb_spec template "basic") as [->|Hb].
  - repeat split; try (vm_compute; reflexivity); auto.
  - destruct (String.eqb_spec template "oracle") as [->|Ho].
    + repeat split; try (vm_compute; reflexivity); auto.
    + repeat split; try (vm_compute; reflexivity).
      * vm_compute. discriminate.
      * intros [H|H]; contradiction.
Qed.

(** ** [deploy] *)

Section DeployRuns.

Variable json_load : string -> option json.
Variable py_repr : json -> string.
Variables (contract_file network : string) (fs : FS).

Lemma deploy_not_found :
  os_exists contract_file fs = false ->
  deploy json_load py_repr contract_file network fs =
    mkRun (Return tt) fs
      [ Print (Echo (nl +:+ Colors.BOLD +:+ "🚀 Deploying Contract"
                     +:+ Colors.ENDC +:+ nl));
        Print (Error ("Contract file not found: " +:+ contract_file)) ].
Proof.
  intros H. unfold deploy, mbind, M_bind, os_path_exists, echo, print_error, echo_line.
  rewrite H. reflexivity.
Qed.

Lemma deploy_rpc_raises (e : exception) :
  os_exists contract_file fs = true ->
  show_rpc json_load py_repr network fs = mkRun (Raise e) fs [] ->
  deploy json_load py_repr contract_file network fs =
    mkRun (Raise e) fs
      [ Print (Echo (nl +:+ Colors.BOLD +:+ "🚀 Deploying Contract"
                     +:+ Colors.ENDC +:+ nl));
        Print (Info ("Contract: " +:+ contract_file));
        Print (Info ("Network: " +:+ network)) ].
Proof.
  intros He H.
  unfold deploy, mbind, M_bind, os_path_exists, echo, print_info, print_error,
    echo_line, read_text.
  rewrite He. cbn [negb]. rewrite H. reflexivity.
Qed.

Lemma deploy_after_rpc (rpc : list line) (contract_code : string) :
  open_r contract_file fs = inr contract_code ->
  show_rpc json_load py_repr network fs = mkRun (Return tt) fs (map Print rpc) ->
  deploy json_load py_repr contract_file network fs =
    mkRun (Return tt) fs
      (map Print (deploy_lines contract_file network rpc contract_code)).
Proof.
  intros holds H.
  unfold deploy, mbind, M_bind, os_path_exists, echo, print_info, print_error,
    echo_line, read_text.
  rewrite (open_r_exists _ _ _ holds). cbn [negb]. rewrite H, holds.
  unfold deploy_lines. rewrite !map_app. reflexivity.
Qed.

Lemma show_rpc_no_config :
  os_exists "genlayer.json" fs = false ->
  show_rpc json_load py_repr network fs = mkRun (Return tt) fs [].
Proof.
  intros H. unfold show_rpc, mbind, M_bind, os_path_exists. rewrite H. reflexivity.
Qed.

Lemma show_rpc_unreadable (e : exception) :
  os_exists "genlayer.json" fs = true ->
  open_r "genlayer.json" fs = inl e ->
  show_rpc json_load py_repr network fs = mkRun (Raise e) fs [].
Proof.
  intros He H. unfold show_rpc, mbind, M_bind, os_path_exists, read_text.
  rewrite He, H. reflexivity.
Qed.

Variable text : string.
Hypothesis configured : open_r "genlayer.json" fs = inr text.

Lemma show_rpc_broken :
  json_load text = None ->
  show_rpc json_load py_repr network fs =
    mkRun (Raise (OtherError "JSONDecodeError" "genlayer.json")) fs [].
Proof.
  intros H. unfold show_rpc, mbind, M_bind, os_path_exists, read_text, raise.
  now rewrite (open_r_exists _ _ _ configured), configured, H.
Qed.

Lemma show_rpc_not_a_dict (value : json) :
  json_load text = Some value ->
  (forall members, value <> JObject members) ->
  show_rpc json_load py_repr network fs =
    mkRun (Raise (OtherError "AttributeError" "get")) fs [].
Proof.
  intros H Hv. unfold show_rpc, mbind, M_bind, os_path_exists, read_text.
  rewrite (open_r_exists _ _ _ configured), configured, H.
  destruct value; try reflexivity. now destruct (Hv members).
Qed.

Lemma show_rpc_init_config (project_name template : string) :
  json_load text = Some (config project_name template) ->
  show_rpc json_load py_repr network fs =
    mkRun (Return tt) fs
      (map Print
         (if String.eqb network "testnet"
          then [Info "RPC: https://rpc.testnet.genlayer.com"]
          else if String.eqb network "mainnet"
          then [Info "RPC: https://rpc.mainnet.genlayer.com"]
          else [])).
Proof.
  intros H. unfold show_rpc, mbind, M_bind, os_path_exists, read_text.
  rewrite (open_r_exists _ _ _ configured), configured, H.
  unfold config, json_get, json_in, json_getitem, print_info, echo_line.
  cbn [dict_get String.eqb Ascii.eqb Bool.eqb mret M_ret].
  destruct (String.eqb network "testnet"); [reflexivity|].
  destruct (String.eqb network "mainnet"); reflexivity.
Qed.

End DeployRuns.

(** X16.  Without a [genlayer.json] in the working directory [deploy]
    asks for nothing more than the contract: it returns after printing the
    steps and, between the two marker lines, the text read from the file as
    one line of output, and no line about an RPC. *)
Theorem deploy_shows_contract
    (json_load : string -> option json) (py_repr : json -> string)
    (contract_file network contract_code : string) (fs : FS) :
  open_r contract_file fs = inr contract_code ->
  os_exists "genlayer.json" fs = false ->
  result (deploy json_load py_repr contract_file network fs) = Return tt
  /\ printed (deploy json_load py_repr contract_file network fs)
       = deploy_lines contract_file network [] contract_code.
Proof.
  intros Hf Hc.
  rewrite (deploy_after_rpc json_load py_repr _ network _ [] _ Hf
             (show_rpc_no_config json_load py_repr network fs Hc)).
  split; [reflexivity|apply printed_map_print].
Qed.

Lemma deploy_shows_contract_witness :
  open_r "main.c" demo_fs = inr "int main() { return 0; }"
  /\ os_exists "genlayer.json" demo_fs = false
  /\ In (Echo "int main() { return 0; }")
        (printed (deploy demo_json_load (fun _ => "") "main.c" "testnet" demo_fs)).
Proof.
  assert (open_r "main.c" demo_fs = inr "int main() { return 0; }") as Hf
    by (vm_compute; reflexivity).
  assert (os_exists "genlayer.json" demo_fs = false) as Hc
    by (vm_compute; reflexivity).
  split; [exact Hf|]. split; [exact Hc|].
  rewrite (proj2 (deploy_shows_contract demo_json_load (fun _ => "") "main.c"
                    "testnet" _ demo_fs Hf Hc)).
  cbn. auto 20.
Defined.

(** X17.  With the configuration [init] writes, read back as it was
    dumped, [deploy] prints the RPC address of [testnet] and of [mainnet];
    any other network name is taken without a word: the run is the same as
    without a configuration, and [deploy] returns in every case. *)
Theorem deploy_with_init_config
    (json_load : string -> option json) (py_repr : json -> string)
    (contract_file network contract_code text project_name template : string)
    (fs : FS) :
  open_r contract_file fs = inr contract_code ->
  open_r "genlayer.json" fs = inr text ->
  json_load text = Some (config project_name template) ->
  result (deploy json_load py_repr contract_file network fs) = Return tt
  /\ printed (deploy json_load py_repr contract_file network fs)
       = deploy_lines contract_file network
           (if String.eqb network "testnet"
            then [Info "RPC: https://rpc.testnet.genlayer.com"]
            else if String.eqb network "mainnet"
            then [Info "RPC: https://rpc.mainnet.genlayer.com"]
            else [])
           contract_code.
Proof.
  intros Hf Hc Hl.
  rewrite (deploy_after_rpc json_load py_repr _ network _ _ _ Hf
             (show_rpc_init_config json_load py_repr network fs text Hc _ _ Hl)).
  split; [reflexivity|apply printed_map_print].
Qed.

Lemma deploy_with_init_config_witness :
  open_r "contracts/c.py" project_fs = inr "x = 1"
  /\ open_r "genlayer.json" project_fs = inr shop_json
  /\ demo_json_load shop_json = Some (config "shop" "basic")
  /\ In (Info "RPC: https://rpc.mainnet.genlayer.com")
        (printed (deploy demo_json_load (fun _ => "") "contracts/c.py" "mainnet"
                    project_fs)).
Proof.
  assert (open_r "contracts/c.py" project_fs = inr "x = 1") as Hf
    by (vm_compute; reflexivity).
  assert (open_r "genlayer.json" project_fs = inr shop_json) as Hc
    by (vm_compute; reflexivity).
  assert (demo_json_load shop_json = Some (config "shop" "basic")) as Hl
    by (vm_compute; reflexivity).
  split; [exact Hf|]. split; [exact Hc|]. split; [exact Hl|].
  rewrite (proj2 (deploy_with_init_config demo_json_load (fun _ => "")
                    "contracts/c.py" "mainnet" _ _ "shop" "basic"
                    project_fs Hf Hc Hl)).
  cbn. auto.
Defined.

(** X18.  What stops [deploy].  A name under which no contract file is
    found is reported and [deploy] returns, without a look at the
    configuration.  A [genlayer.json] that is there but cannot be read, is
    not JSON, or whose value is not an object, makes [deploy] end in an
    exception after the first three lines: the steps and the contract are
    not shown. *)
Theorem deploy_stops
    (json_load : string -> option json) (py_repr : json -> string)
    (contract_file network : string) (fs : FS) :
  (os_exists contract_file fs = false ->
     result (deploy json_load py_repr contract_file network fs) = Return tt
     /\ printed (deploy json_load py_repr contract_file network fs)
          = [ Echo (nl +:+ Colors.BOLD +:+ "🚀 Deploying Contract"
                    +:+ Colors.ENDC +:+ nl);
              Error ("Contract file not found: " +:+ contract_file) ])
  /\ (os_exists contract_file fs = true ->
      os_exists "genlayer.json" fs = true ->
      match open_r "genlayer.json" fs with
      | inl e =>
          result (deploy json_load py_repr contract_file network fs) = Raise e
          /\ printed (deploy json_load py_repr contract_file network fs)
               = [ Echo (nl +:+ Colors.BOLD +:+ "🚀 Deploying Contract"
                         +:+ Colors.ENDC +:+ nl);
                   Info ("Contract: " +:+ contract_file);
                   Info ("Network: " +:+ network) ]
      | inr text =>
          match json_load text with
          | Some (JObject _) => True
          | _ =>
              (exists e, result (deploy json_load py_repr contract_file network fs)
                           = Raise e)
              /\ printed (deploy json_load py_repr contract_file network fs)
                   = [ Echo (nl +:+ Colors.BOLD +:+ "🚀 Deploying Contract"
                             +:+ Colors.ENDC +:+ nl);
                       Info ("Contract: " +:+ contract_file);
                       Info ("Network: " +:+ network) ]
          end
      end).
Proof.
  split.
  - intros H. rewrite (deploy_not_found json_load py_repr _ network _ H).
    split; reflexivity.
  - intros He Hj.
    destruct (open_r "genlayer.json" fs) as [e|text] eqn:Hc.
    + rewrite (deploy_rpc_raises json_load py_repr _ network _ _ He
                 (show_rpc_unreadable json_load py_repr network fs e Hj Hc)).
      split; reflexivity.
    + destruct (json_load text) as [value|] eqn:Hl.
      * destruct value; try exact I;
          (rewrite (deploy_rpc_raises json_load py_repr _ network _ _ He
                      (show_rpc_not_a_dict json_load py_repr network fs text Hc _ Hl
                         ltac:(discriminate)));
           split; [eexists; reflexivity|reflexivity]).
      * rewrite (deploy_rpc_raises json_load py_repr _ network _ _ He
                   (show_rpc_broken json_load py_repr network fs text Hc Hl)).
        split; [eexists; reflexivity|reflexivity].
Qed.

Lemma deploy_stops_witness :
  os_exists "c.py" broken_fs = true
  /\ open_r "genlayer.json" broken_fs = inr "{bad"
  /\ demo_json_load "{bad" = None
  /\ printed (deploy demo_json_load (fun _ => "") "c.py" "testnet" broken_fs)
       = [ Echo (nl +:+ Colors.BOLD +:+ "🚀 Deploying Contract"
                 +:+ Colors.ENDC +:+ nl);
           Info "Contract: c.py";
           Info "Network: testnet" ].
Proof.
  assert (os_exists "c.py" broken_fs = true) as He by (vm_compute; reflexivity).
  assert (os_exists "genlayer.json" broken_fs = true) as Hj by (vm_compute; reflexivity).
  split; [exact He|]. split; [vm_compute; reflexivity|]. split; [reflexivity|].
  pose proof (proj2 (deploy_stops demo_json_load (fun _ => "") "c.py" "testnet"
                       broken_fs) He Hj) as H.
  change (open_r "genlayer.json" broken_fs) with (@inr exception string "{bad") in H.
  cbv iota in H. change (demo_json_load "{bad") with (@None json) in H.
  apply H.
Defined.

(** A directory under the name of the contract passes the first check and
    stops [deploy] at the end, where the file is opened. *)
Example deploy_directory :
  result (deploy demo_json_load (fun _ => "") "contracts" "testnet" demo_fs)
    = Raise (OtherError "IsADirectoryError" "contracts").
Proof. vm_compute. reflexivity. Qed.

(** ** A new project *)










Section NewProject.

Variable json_dump : json -> string.
Variables (project_name template : string) (fs : FS) (loc : location).

Hypothesis wf : fs_wf fs.
Hypothesis fresh : may_mkdir (Path project_name) fs = inr loc.
Hypothesis room :
  (Z.of_nat (String.length (path_str (Path project_name))) + 24 < PATH_MAX)%Z.

Let p : path := Path project_name.














End NewProject.


